(** * urban_api: request/response schemas, DTO projection and error mapping

    A shallow embedding of
      - idu_api/urban_api/schemas/services.py
      - urban_api/schemas/indicators.py
      - idu_api/urban_api/exceptions/logic/common.py

    The schemas are pydantic (v2) models: a class is a list of field
    declarations plus its [model_validator(mode="before")] hooks, and calling
    the class with keyword arguments runs the hooks on the raw keyword
    dictionary and then validates the declared fields one by one.  The
    embedding keeps that shape: every class below is its declaration list, and
    one interpreter, [BaseModel_init], gives all of them their constructor.

    [ServicesDataWithGeometry.from_dto] goes through the geometry schema,
    which is not among the sources: its converter is a parameter of the
    projection.  urban_api/dto/__init__.py only binds names; it is embedded
    as the list of its import statements and its [__all__]. *)

From Stdlib Require Import ZArith Ascii String List Bool Lia.
From Stdlib Require Import DecimalString DecimalPos DecimalZ.
#[local] Set Warnings "-register-all".
Import ListNotations.
Local Open Scope string_scope.
Local Open Scope list_scope.

(** ** Python values *)

(** The values that reach the schemas: JSON scalars and containers, datetimes
    (an abstract timestamp) and instances of other models.  A dictionary is an
    association list in insertion order, which is the order [dict.items()]
    iterates in. *)
Inductive value : Type :=
| VNone
| VBool (b : bool)
| VInt (z : Z)
| VStr (s : string)
| VDatetime (t : Z)
| VList (l : list value)
| VDict (d : list (string * value))
| VModel (cls : string) (attrs : list (string * value)) (fields_set : list string).

Definition dict : Type := list (string * value).

(** [v is None] *)
Definition is_None (v : value) : bool :=
  match v with VNone => true | _ => false end.

(** [d.get(k)]: the value stored under [k], if any. *)
Fixpoint dict_get (d : dict) (k : string) : option value :=
  match d with
  | [] => None
  | (k', v) :: rest => if String.eqb k k' then Some v else dict_get rest k
  end.

(** [k in names] *)
Definition mem (k : string) (names : list string) : bool :=
  existsb (String.eqb k) names.

(** ** Annotations, exceptions and results *)

(** The annotations the schemas use. *)
Inductive ftype : Type :=
| TInt                       (* int *)
| TStr                       (* str *)
| TDatetime                  (* datetime *)
| TDictStrAny                (* Dict[str, Any] *)
| TOptional (t : ftype)      (* Optional[t] *)
| TList (t : ftype)          (* list[t] *)
| TModel (cls : string).     (* a BaseModel subclass, by name *)

(** One entry of a pydantic [ValidationError].  A [value_error] keeps the
    message of the [ValueError] the hook raised (pydantic shows it behind the
    prefix "Value error, "). *)
Inductive line_error : Type :=
| missing (loc : string)                        (* required field not supplied *)
| invalid_type (loc : string) (expected : ftype) (* value not of the declared type *)
| value_error (msg : string).                   (* ValueError raised by a validator hook *)

Inductive exn : Type :=
| ValueError (msg : string)
| KeyError (key : string)
| ValidationError (title : string) (errors : list line_error).

Inductive result (A : Type) : Type :=
| Ok (a : A)
| Raise (e : exn).
Arguments Ok {A} a.
Arguments Raise {A} e.

Definition bind {A B : Type} (r : result A) (k : A -> result B) : result B :=
  match r with
  | Ok a => k a
  | Raise e => Raise e
  end.

Notation "x <- r ;; k" := (bind r (fun x => k))
  (at level 61, r at next level, right associativity).

(** A list comprehension whose body may raise: elements are built left to
    right and the first exception aborts the whole comprehension. *)
Fixpoint comprehension {A B : Type} (f : A -> result B) (l : list A) : result (list B) :=
  match l with
  | [] => Ok []
  | a :: rest => b <- f a ;; bs <- comprehension f rest ;; Ok (b :: bs)
  end.

(** ** The framework: field declarations and the model constructor *)

(** What the enclosing Python process contributes and the sources do not fix:
    the lax-mode conversions pydantic applies to an input that is not already
    of the declared type (a numeric string or a bool for [int], an ISO string
    for [datetime]), and the clock read by [default_factory=datetime.utcnow].
    [None] is never converted: it is tested before the conversions are
    consulted. *)
Class Runtime : Type := {
  lax_int : value -> option Z;
  lax_datetime : value -> option Z;
  utcnow : Z
}.

(** No conversion at all: only values already of the declared type pass. *)
Definition strict : Runtime :=
  {| lax_int := fun _ => None; lax_datetime := fun _ => None; utcnow := 0%Z |}.

Inductive fdefault : Type :=
| Required                   (* Field(...), or Field() without a default *)
| Default (v : value)        (* Field(v, ...) *)
| DefaultFactoryDict         (* Field(default_factory=dict) *)
| DefaultFactoryUtcnow.      (* Field(default_factory=datetime.utcnow) *)

Record field : Type := Field {
  fname : string;
  fannot : ftype;
  fdflt : fdefault
}.

Record model_class : Type := {
  cls_name : string;
  cls_fields : list field;
  (* the mode="before" model validators, in the order the class body defines them *)
  cls_before : list (dict -> result dict)
}.

(** A validated model instance: its attributes and [model_fields_set], the
    names of the fields that were explicitly supplied. *)
Record instance : Type := {
  inst_cls : string;
  inst_attrs : dict;
  model_fields_set : list string
}.

Definition getattr (i : instance) (name : string) : option value :=
  dict_get (inst_attrs i) name.

Definition as_value (i : instance) : value :=
  VModel (inst_cls i) (inst_attrs i) (model_fields_set i).

Section Validation.
Context {rt : Runtime}.

(** Validation of one value against an annotation: the validated value, or
    nothing when the value is not valid for the annotation.  A nested model
    is only ever given as an instance by the sources, and an instance of the
    right class is taken as it is. *)
Fixpoint validate_type (t : ftype) (v : value) : option value :=
  match t with
  | TInt =>
      match v with
      | VInt z => Some (VInt z)
      | VNone => None
      | _ => option_map VInt (lax_int v)
      end
  | TStr =>
      match v with
      | VStr s => Some (VStr s)
      | _ => None
      end
  | TDatetime =>
      match v with
      | VDatetime d => Some (VDatetime d)
      | VNone => None
      | _ => option_map VDatetime (lax_datetime v)
      end
  | TDictStrAny =>
      match v with
      | VDict d => Some (VDict d)
      | _ => None
      end
  | TOptional t' =>
      match v with
      | VNone => Some VNone
      | _ => validate_type t' v
      end
  | TList t' =>
      match v with
      | VList l =>
          option_map VList
            ((fix each (l : list value) : option (list value) :=
                match l with
                | [] => Some []
                | x :: xs =>
                    match validate_type t' x, each xs with
                    | Some x', Some xs' => Some (x' :: xs')
                    | _, _ => None
                    end
                end) l)
      | _ => None
      end
  | TModel c =>
      match v with
      | VModel c' attrs set => if String.eqb c c' then Some v else None
      | _ => None
      end
  end.

Definition default_value (d : fdefault) : option value :=
  match d with
  | Required => None
  | Default v => Some v
  | DefaultFactoryDict => Some (VDict [])
  | DefaultFactoryUtcnow => Some (VDatetime utcnow)
  end.

(** Validation of one declared field against the raw dictionary.  A key of
    the dictionary that names no declared field is never looked at (the
    default [extra="ignore"]); a default is used as it is, without validation. *)
Inductive field_result : Type :=
| Supplied (v : value)       (* the key was present and its value valid *)
| Defaulted (v : value)      (* the key was absent and the field has a default *)
| Failed (e : line_error).

Definition validate_field (f : field) (values : dict) : field_result :=
  match dict_get values (fname f) with
  | Some v =>
      match validate_type (fannot f) v with
      | Some v' => Supplied v'
      | None => Failed (invalid_type (fname f) (fannot f))
      end
  | None =>
      match default_value (fdflt f) with
      | Some d => Defaulted d
      | None => Failed (missing (fname f))
      end
  end.

(** All declared fields, in declaration order: attributes, fields set, and
    every error found (pydantic reports all of them, not only the first). *)
Fixpoint validate_fields (fs : list field) (values : dict)
  : dict * list string * list line_error :=
  match fs with
  | [] => ([], [], [])
  | f :: fs' =>
      let '(attrs, set, errs) := validate_fields fs' values in
      match validate_field f values with
      | Supplied v => ((fname f, v) :: attrs, fname f :: set, errs)
      | Defaulted v => ((fname f, v) :: attrs, set, errs)
      | Failed e => (attrs, set, e :: errs)
      end
  end.

(** The "before" hooks wrap one another in definition order, so the hook
    defined last is outermost and runs first. *)
Fixpoint run_hooks (hooks : list (dict -> result dict)) (values : dict) : result dict :=
  match hooks with
  | [] => Ok values
  | h :: rest => values' <- h values ;; run_hooks rest values'
  end.

Definition run_before (c : model_class) (values : dict) : result dict :=
  run_hooks (rev (cls_before c)) values.

(** Calling the class on keyword arguments, or [cls.model_validate(values)]:
    the hooks, then the fields.  A [ValueError] raised by a hook surfaces as a
    [ValidationError] carrying that message. *)
Definition BaseModel_init (c : model_class) (values : dict) : result instance :=
  match run_before c values with
  | Raise (ValueError msg) => Raise (ValidationError (cls_name c) [value_error msg])
  | Raise e => Raise e
  | Ok values' =>
      let '(attrs, set, errs) := validate_fields (cls_fields c) values' in
      match errs with
      | [] => Ok {| inst_cls := cls_name c; inst_attrs := attrs; model_fields_set := set |}
      | _ :: _ => Raise (ValidationError (cls_name c) errs)
      end
  end.

End Validation.

(** ** f-strings *)

(** A formatted string literal is a sequence of literal text and replacement
    fields; the sources only interpolate strings and integers. *)
Inductive fpart : Type :=
| Lit (s : string)     (* literal text *)
| FStr (s : string)    (* {x} with x a str *)
| FInt (z : Z).        (* {x} with x an int *)

(** [str(z)] for an int: the decimal numeral, with a leading minus sign for
    a negative number. *)
Definition str_of_int (z : Z) : string := NilZero.string_of_int (Z.to_int z).

Definition render (p : fpart) : string :=
  match p with
  | Lit s => s
  | FStr s => s
  | FInt z => str_of_int z
  end.

Definition fstring (parts : list fpart) : string :=
  fold_right (fun p acc => render p ++ acc)%string EmptyString parts.

(** ** DTOs (urban_api.dto) *)

Definition opt_int (o : option Z) : value :=
  match o with Some z => VInt z | None => VNone end.

Definition opt_str (o : option string) : value :=
  match o with Some s => VStr s | None => VNone end.

Module ServiceDTO.
(** Modelled from the spec: the DTO classes (dto/services.py) are not among
    the sources.  The field set is the one [from_dto] reads; the nullable
    fields are those the spec's data model calls optional (territory type,
    display name, capacity). *)
Record t : Type := {
  service_id : Z;
  service_type_id : Z;
  urban_function_id : Z;
  service_type_name : string;
  service_type_capacity_modeled : Z;
  service_type_code : string;
  territory_type_id : option Z;
  territory_type_name : option string;
  name : option string;
  capacity_real : option Z;
  properties : dict;
  created_at : Z;
  updated_at : Z
}.
End ServiceDTO.

Module ServiceWithTerritoriesDTO.
(** Modelled from the spec: [ServiceDTO]'s fields plus [territories], the
    joined territory rows, each a dictionary read by key in [from_dto]. *)
Record t : Type := {
  service_id : Z;
  service_type_id : Z;
  urban_function_id : Z;
  service_type_name : string;
  service_type_capacity_modeled : Z;
  service_type_code : string;
  territory_type_id : option Z;
  territory_type_name : option string;
  name : option string;
  capacity_real : option Z;
  properties : dict;
  territories : list dict;
  created_at : Z;
  updated_at : Z
}.
End ServiceWithTerritoriesDTO.

Module ServiceWithGeometryDTO.
(** Modelled from the spec: [ServiceDTO]'s fields plus the two geometry
    values, footprint and centroid, in the geometry engine's own type, which
    the sources never look into. *)
#[local] Set Implicit Arguments.
Record t (shapely : Type) : Type := {
  service_id : Z;
  service_type_id : Z;
  urban_function_id : Z;
  service_type_name : string;
  service_type_capacity_modeled : Z;
  service_type_code : string;
  territory_type_id : option Z;
  territory_type_name : option string;
  name : option string;
  capacity_real : option Z;
  properties : dict;
  geometry : shapely;
  centre_point : shapely;
  created_at : Z;
  updated_at : Z
}.
#[local] Unset Implicit Arguments.
End ServiceWithGeometryDTO.

Module MeasurementUnitDTO.
(** Modelled from the spec: a measurement unit is "id + display name". *)
Record t : Type := {
  measurement_unit_id : Z;
  name : string
}.
End MeasurementUnitDTO.

Module IndicatorsDTO.
(** Modelled from the spec: the indicator DTO (dto/indicators.py) is not among
    the sources; [parent_id] and the measurement unit are nullable, as the
    spec's IndicatorRecord has them. *)
Record t : Type := {
  indicator_id : Z;
  name_full : string;
  name_short : string;
  measurement_unit_id : option Z;
  level : Z;
  list_label : string;
  parent_id : option Z
}.
End IndicatorsDTO.

(** ** Schemas declared outside the shown sources *)

Module ServiceTypes.
(** Modelled from the spec: schemas/service_types.py is not among the sources.
    A service type is "identity + name + numeric attributes"; the field names
    are those of the constructor call and of the [example] in services.py. *)
Definition cls : model_class := {|
  cls_name := "ServiceTypes";
  cls_fields := [
    Field "service_type_id" TInt Required;
    Field "urban_function_id" TInt Required;
    Field "name" TStr Required;
    Field "capacity_modeled" TInt Required;
    Field "code" TStr Required
  ];
  cls_before := []
|}.
End ServiceTypes.

Module TerritoryType.
(** Modelled from the spec: schemas/territories.py is not among the sources.
    A territory type is an identifier and a name, the two keyword arguments
    of the constructor call and the two keys of the [example] in services.py
    ([{"territory_type_id": 1, "name": ...}]); both are plain (non-optional)
    fields. *)
Definition cls : model_class := {|
  cls_name := "TerritoryType";
  cls_fields := [
    Field "territory_type_id" TInt Required;
    Field "name" TStr Required
  ];
  cls_before := []
|}.
End TerritoryType.

Module ShortTerritory.
(** Modelled from the spec: a "lightweight territory reference (id + name)". *)
Definition cls : model_class := {|
  cls_name := "ShortTerritory";
  cls_fields := [
    Field "territory_id" TInt Required;
    Field "name" TStr Required
  ];
  cls_before := []
|}.
End ShortTerritory.

(** [d[k]]: subscription raises [KeyError] on a missing key. *)
Definition getitem (d : dict) (k : string) : result value :=
  match dict_get d k with
  | Some v => Ok v
  | None => Raise (KeyError k)
  end.

(** ** idu_api/urban_api/schemas/services.py *)

Module ServicesData.
Import ServiceDTO.

Definition cls : model_class := {|
  cls_name := "ServicesData";
  cls_fields := [
    Field "service_id" TInt Required;
    Field "service_type" (TModel "ServiceTypes") Required;
    Field "territory_type" (TOptional (TModel "TerritoryType")) Required;
    Field "name" (TOptional TStr) Required;
    Field "capacity_real" (TOptional TInt) Required;
    Field "properties" TDictStrAny Required;
    Field "created_at" TDatetime DefaultFactoryUtcnow;
    Field "updated_at" TDatetime DefaultFactoryUtcnow
  ];
  cls_before := []
|}.

Definition from_dto {rt : Runtime} (dto : ServiceDTO.t) : result instance :=
  service_type <- BaseModel_init ServiceTypes.cls [
      ("service_type_id", VInt (service_type_id dto));
      ("urban_function_id", VInt (urban_function_id dto));
      ("name", VStr (service_type_name dto));
      ("capacity_modeled", VInt (service_type_capacity_modeled dto));
      ("code", VStr (service_type_code dto))
    ] ;;
  territory_type <- BaseModel_init TerritoryType.cls [
      ("territory_type_id", opt_int (territory_type_id dto));
      ("name", opt_str (territory_type_name dto))
    ] ;;
  BaseModel_init cls [
    ("service_id", VInt (service_id dto));
    ("service_type", as_value service_type);
    ("territory_type", as_value territory_type);
    ("name", opt_str (name dto));
    ("capacity_real", opt_int (capacity_real dto));
    ("properties", VDict (properties dto));
    ("created_at", VDatetime (created_at dto));
    ("updated_at", VDatetime (updated_at dto))
  ].
End ServicesData.

Module ServiceWithTerritories.
Import ServiceWithTerritoriesDTO.

Definition cls : model_class := {|
  cls_name := "ServiceWithTerritories";
  cls_fields := [
    Field "service_id" TInt Required;
    Field "service_type" (TModel "ServiceTypes") Required;
    Field "territory_type" (TOptional (TModel "TerritoryType")) Required;
    Field "name" (TOptional TStr) Required;
    Field "capacity_real" (TOptional TInt) Required;
    Field "properties" TDictStrAny Required;
    Field "territories" (TList (TModel "ShortTerritory")) Required;
    Field "created_at" TDatetime DefaultFactoryUtcnow;
    Field "updated_at" TDatetime DefaultFactoryUtcnow
  ];
  cls_before := []
|}.

(** The body of the comprehension, for one territory row. *)
Definition short_territory {rt : Runtime} (territory : dict) : result value :=
  territory_id <- getitem territory "territory_id" ;;
  name <- getitem territory "name" ;;
  t <- BaseModel_init ShortTerritory.cls [("territory_id", territory_id); ("name", name)] ;;
  Ok (as_value t).

Definition from_dto {rt : Runtime} (dto : ServiceWithTerritoriesDTO.t) : result instance :=
  service_type <- BaseModel_init ServiceTypes.cls [
      ("service_type_id", VInt (service_type_id dto));
      ("urban_function_id", VInt (urban_function_id dto));
      ("name", VStr (service_type_name dto));
      ("capacity_modeled", VInt (service_type_capacity_modeled dto));
      ("code", VStr (service_type_code dto))
    ] ;;
  territory_type <- BaseModel_init TerritoryType.cls [
      ("territory_type_id", opt_int (territory_type_id dto));
      ("name", opt_str (territory_type_name dto))
    ] ;;
  territories <- comprehension short_territory (territories dto) ;;
  BaseModel_init cls [
    ("service_id", VInt (service_id dto));
    ("service_type", as_value service_type);
    ("territory_type", as_value territory_type);
    ("name", opt_str (name dto));
    ("capacity_real", opt_int (capacity_real dto));
    ("properties", VDict (properties dto));
    ("territories", VList territories);
    ("created_at", VDatetime (created_at dto));
    ("updated_at", VDatetime (updated_at dto))
  ].
End ServiceWithTerritories.

Module ServicesDataWithGeometry.
Import ServiceWithGeometryDTO.

Definition cls : model_class := {|
  cls_name := "ServicesDataWithGeometry";
  cls_fields := [
    Field "service_id" TInt Required;
    Field "service_type" (TModel "ServiceTypes") Required;
    Field "territory_type" (TOptional (TModel "TerritoryType")) Required;
    Field "name" (TOptional TStr) Required;
    Field "capacity_real" (TOptional TInt) Required;
    Field "properties" TDictStrAny Required;
    Field "geometry" (TModel "Geometry") Required;
    Field "centre_point" (TModel "Geometry") Required;
    Field "created_at" TDatetime DefaultFactoryUtcnow;
    Field "updated_at" TDatetime DefaultFactoryUtcnow
  ];
  cls_before := []
|}.

Section FromDto.
Context {rt : Runtime}.
(** The geometry engine's values and [Geometry.from_shapely_geometry]
    (schemas/geometries.py, not among the sources), which may raise. *)
Variable shapely : Type.
Variable from_shapely_geometry : shapely -> result instance.

Definition from_dto (dto : ServiceWithGeometryDTO.t shapely) : result instance :=
  service_type <- BaseModel_init ServiceTypes.cls [
      ("service_type_id", VInt (service_type_id dto));
      ("urban_function_id", VInt (urban_function_id dto));
      ("name", VStr (service_type_name dto));
      ("capacity_modeled", VInt (service_type_capacity_modeled dto));
      ("code", VStr (service_type_code dto))
    ] ;;
  territory_type <- BaseModel_init TerritoryType.cls [
      ("territory_type_id", opt_int (territory_type_id dto));
      ("name", opt_str (territory_type_name dto))
    ] ;;
  geometry <- from_shapely_geometry (geometry dto) ;;
  centre_point <- from_shapely_geometry (centre_point dto) ;;
  BaseModel_init cls [
    ("service_id", VInt (service_id dto));
    ("service_type", as_value service_type);
    ("territory_type", as_value territory_type);
    ("name", opt_str (name dto));
    ("capacity_real", opt_int (capacity_real dto));
    ("properties", VDict (properties dto));
    ("geometry", as_value geometry);
    ("centre_point", as_value centre_point);
    ("created_at", VDatetime (created_at dto));
    ("updated_at", VDatetime (updated_at dto))
  ].
End FromDto.
End ServicesDataWithGeometry.

Module ServicesDataPost.
Definition cls : model_class := {|
  cls_name := "ServicesDataPost";
  cls_fields := [
    Field "physical_object_id" TInt Required;
    Field "object_geometry_id" TInt Required;
    Field "service_type_id" TInt Required;
    Field "territory_type_id" (TOptional TInt) (Default VNone);
    Field "name" (TOptional TStr) (Default VNone);
    Field "capacity_real" (TOptional TInt) (Default VNone);
    Field "properties" TDictStrAny DefaultFactoryDict
  ];
  cls_before := []
|}.
End ServicesDataPost.

Module ServicesDataPut.
Definition cls : model_class := {|
  cls_name := "ServicesDataPut";
  cls_fields := [
    Field "service_type_id" TInt Required;
    Field "territory_type_id" (TOptional TInt) Required;
    Field "name" (TOptional TStr) Required;
    Field "capacity_real" (TOptional TInt) Required;
    Field "properties" TDictStrAny Required
  ];
  cls_before := []
|}.
End ServicesDataPut.

Module ServicesDataPatch.

(** Ensure the request body is not empty. *)
Definition check_empty_request (values : dict) : result dict :=
  match values with
  | [] => Raise (ValueError "request body cannot be empty")   (* if not values *)
  | _ :: _ => Ok values
  end.

(** The loop of [disallow_nulls] over [values.items()]. *)
Fixpoint disallow_nulls_items (items : list (string * value)) : result unit :=
  match items with
  | [] => Ok tt
  | (k, v) :: rest =>
      if is_None v then Raise (ValueError (fstring [FStr k; Lit " cannot be null"]))
      else disallow_nulls_items rest
  end.

(** Ensure the request body hasn't nulls. *)
Definition disallow_nulls (values : dict) : result dict :=
  _ <- disallow_nulls_items values ;; Ok values.

Definition cls : model_class := {|
  cls_name := "ServicesDataPatch";
  cls_fields := [
    Field "service_type_id" (TOptional TInt) (Default VNone);
    Field "territory_type_id" (TOptional TInt) (Default VNone);
    Field "name" (TOptional TStr) (Default VNone);
    Field "capacity_real" (TOptional TInt) (Default VNone);
    Field "properties" (TOptional TDictStrAny) (Default VNone)
  ];
  cls_before := [check_empty_request; disallow_nulls]
|}.
End ServicesDataPatch.

(** ** urban_api/schemas/indicators.py *)

Module Indicators.
Import IndicatorsDTO.

Definition cls : model_class := {|
  cls_name := "Indicators";
  cls_fields := [
    Field "indicator_id" TInt Required;
    Field "name_full" TStr Required;
    Field "name_short" TStr Required;
    Field "measurement_unit_id" (TOptional TInt) Required;
    Field "level" TInt Required;
    Field "list_label" TStr Required;
    Field "parent_id" (TOptional TInt) Required
  ];
  cls_before := []
|}.

Definition from_dto {rt : Runtime} (dto : IndicatorsDTO.t) : result instance :=
  BaseModel_init cls [
    ("indicator_id", VInt (indicator_id dto));
    ("name_full", VStr (name_full dto));
    ("name_short", VStr (name_short dto));
    ("measurement_unit_id", opt_int (measurement_unit_id dto));
    ("level", VInt (level dto));
    ("list_label", VStr (list_label dto));
    ("parent_id", opt_int (parent_id dto))
  ].
End Indicators.

Module IndicatorsPost.
Definition cls : model_class := {|
  cls_name := "IndicatorsPost";
  cls_fields := [
    Field "name_full" TStr Required;
    Field "name_short" TStr Required;
    Field "measurement_unit_id" TInt Required;
    Field "level" TInt Required;
    Field "list_label" TStr Required;
    Field "parent_id" TInt Required
  ];
  cls_before := []
|}.
End IndicatorsPost.

Module MeasurementUnit.
Import MeasurementUnitDTO.

Definition cls : model_class := {|
  cls_name := "MeasurementUnit";
  cls_fields := [
    Field "measurement_unit_id" TInt Required;
    Field "name" TStr Required
  ];
  cls_before := []
|}.

Definition from_dto {rt : Runtime} (dto : MeasurementUnitDTO.t) : result instance :=
  BaseModel_init cls [
    ("measurement_unit_id", VInt (measurement_unit_id dto));
    ("name", VStr (name dto))
  ].
End MeasurementUnit.

Module MeasurementUnitPost.
Definition cls : model_class := {|
  cls_name := "MeasurementUnitPost";
  cls_fields := [
    Field "name" TStr Required
  ];
  cls_before := []
|}.
End MeasurementUnitPost.

(** The names indicators.py asks of the DTO package
    ([from urban_api.dto import ...], its line 6). *)
Definition indicators_imports : list string :=
  ["IndicatorsDTO"; "IndicatorValueDTO"; "MeasurementUnitDTO"].

(** ** urban_api/dto/__init__.py *)

Module dto.
(** The [from .module import names] statements, in order. *)
Definition imports : list (string * list string) := [
  ("functional_zones", ["FunctionalZoneDataDTO"]);
  ("indicators", ["IndicatorDTO"; "IndicatorValueDTO"; "MeasurementUnitDTO"]);
  ("living_buildings", ["LivingBuildingsDTO"; "LivingBuildingsWithGeometryDTO"]);
  ("object_geometries", ["ObjectGeometryDTO"]);
  ("physical_objects",
   ["PhysicalObjectDataDTO"; "PhysicalObjectTypeDTO";
    "PhysicalObjectWithGeometryDTO"; "PhysicalObjectWithTerritoryDTO"]);
  ("service_types", ["ServiceTypesDTO"; "ServiceTypesNormativesDTO"; "UrbanFunctionDTO"]);
  ("services", ["ServiceDTO"; "ServiceWithGeometryDTO"; "ServiceWithTerritoriesDTO"]);
  ("territories", ["TerritoryDTO"; "TerritoryTypeDTO"; "TerritoryWithoutGeometryDTO"]);
  ("users", ["TokensTuple"; "UserDTO"])
].

Definition __all__ : list string := [
  "TerritoryTypeDTO";
  "TerritoryDTO";
  "UserDTO";
  "TokensTuple";
  "ServiceDTO";
  "ServiceTypesDTO";
  "ServiceTypesNormativesDTO";
  "ServiceWithGeometryDTO";
  "ServiceWithTerritoriesDTO";
  "IndicatorDTO";
  "IndicatorValueDTO";
  "MeasurementUnitDTO";
  "ObjectGeometryDTO";
  "PhysicalObjectDataDTO";
  "PhysicalObjectTypeDTO";
  "PhysicalObjectWithGeometryDTO";
  "PhysicalObjectWithTerritoryDTO";
  "LivingBuildingsDTO";
  "LivingBuildingsWithGeometryDTO";
  "FunctionalZoneDataDTO";
  "TerritoryWithoutGeometryDTO";
  "UrbanFunctionDTO"
].

(** The names the package's namespace holds once its body has run: the
    submodules the imports loaded and the names they bound. *)
Definition namespace : list string :=
  map fst imports ++ flat_map snd imports.

(** Whether [from urban_api.dto import name] finds [name] (it raises
    ImportError otherwise: no submodule carries a class's name). *)
Definition binds (name : string) : bool := mem name namespace.
End dto.

(** ** idu_api/urban_api/exceptions/logic/common.py *)

Module status.
(** fastapi.status *)
Definition HTTP_404_NOT_FOUND : Z := 404.
End status.

Module EntityNotFoundById.
Record t : Type := {
  requested_id : Z;
  entity : string
}.

(** Construct from requested identifier and entity (table) name. *)
Definition __init__ (requested_id : Z) (entity : string) : t :=
  {| requested_id := requested_id; entity := entity |}.

Definition __str__ (self : t) : string :=
  fstring [Lit "Entity '"; FStr (entity self); Lit "' with id=";
           FInt (requested_id self); Lit " is not found"].

(** Return '404 Not found' status code. *)
Definition get_status_code (self : t) : Z := status.HTTP_404_NOT_FOUND.
End EntityNotFoundById.

(** ** Vocabulary of the statements *)

(** The names a class declares, in declaration order. *)
Definition declared (c : model_class) : list string := map fname (cls_fields c).

(** The annotation a class declares for a name. *)
Definition annotation (c : model_class) (name : string) : option ftype :=
  option_map fannot (find (fun f => String.eqb name (fname f)) (cls_fields c)).

(** The first key, in iteration order, whose value is [None]. *)
Fixpoint first_null (values : dict) : option string :=
  match values with
  | [] => None
  | (k, v) :: rest => if is_None v then Some k else first_null rest
  end.

(** A territory row as the persistence layer documents it: an integer
    identifier under "territory_id" and a string under "name". *)
Definition well_formed_row (row : dict) : bool :=
  match dict_get row "territory_id", dict_get row "name" with
  | Some (VInt _), Some (VStr _) => true
  | _, _ => false
  end.

(** The (territory_id, name) pair of a row of the DTO, and of an element of
    the projected [territories] list. *)
Definition row_pair (row : dict) : option value * option value :=
  (dict_get row "territory_id", dict_get row "name").

Definition reference_pair (v : value) : option value * option value :=
  match v with
  | VModel _ attrs _ => (dict_get attrs "territory_id", dict_get attrs "name")
  | _ => (None, None)
  end.

Definition is_instance_of (c : string) (v : value) : bool :=
  match v with
  | VModel c' _ _ => String.eqb c c'
  | _ => false
  end.

(** A service whose type is known and whose territory type is not
    recorded: both joined territory-type columns are null. *)
Definition school_dto : ServiceDTO.t := {|
  ServiceDTO.service_id := 1;
  ServiceDTO.service_type_id := 2;
  ServiceDTO.urban_function_id := 3;
  ServiceDTO.service_type_name := "School";
  ServiceDTO.service_type_capacity_modeled := 600;
  ServiceDTO.service_type_code := "1";
  ServiceDTO.territory_type_id := None;
  ServiceDTO.territory_type_name := None;
  ServiceDTO.name := Some "School 12";
  ServiceDTO.capacity_real := None;
  ServiceDTO.properties := [];
  ServiceDTO.created_at := 1711470804;
  ServiceDTO.updated_at := 1711470804
|}.

(** A service with a territory type, joined with two territories. *)
Definition clinic_dto : ServiceWithTerritoriesDTO.t := {|
  ServiceWithTerritoriesDTO.service_id := 5;
  ServiceWithTerritoriesDTO.service_type_id := 4;
  ServiceWithTerritoriesDTO.urban_function_id := 3;
  ServiceWithTerritoriesDTO.service_type_name := "Clinic";
  ServiceWithTerritoriesDTO.service_type_capacity_modeled := 80;
  ServiceWithTerritoriesDTO.service_type_code := "2";
  ServiceWithTerritoriesDTO.territory_type_id := Some 1%Z;
  ServiceWithTerritoriesDTO.territory_type_name := Some "City";
  ServiceWithTerritoriesDTO.name := None;
  ServiceWithTerritoriesDTO.capacity_real := Some 40%Z;
  ServiceWithTerritoriesDTO.properties := [("floors", VInt 2)];
  ServiceWithTerritoriesDTO.territories :=
    [ [("territory_id", VInt 10); ("name", VStr "North")];
      [("territory_id", VInt 7); ("name", VStr "Harbour")] ];
  ServiceWithTerritoriesDTO.created_at := 1711470804;
  ServiceWithTerritoriesDTO.updated_at := 1711557204
|}.

(** A field of a second shape [takes over] from a first shape when the body
    carries its key and the first shape declares the name with an annotation
    that admits no more than the second one's. *)
Definition takes_over {rt : Runtime} (A : model_class) (f : field) (values : dict) : Prop :=
  dict_get values (fname f) <> None
  /\ exists g, In g (cls_fields A) /\ fname g = fname f
       /\ forall v v', validate_type (fannot g) v = Some v' ->
                       validate_type (fannot f) v = Some v'.

(** Whether a character occurs in a string. *)
Fixpoint occurs (c : ascii) (s : string) : bool :=
  match s with
  | EmptyString => false
  | String a s' => Ascii.eqb a c || occurs c s'
  end.

(** A string cut at the last occurrence of a character: what precedes it
    and what follows it. *)
Fixpoint split_last (c : ascii) (s : string) : option (string * string) :=
  match s with
  | EmptyString => None
  | String a s' =>
      match split_last c s' with
      | Some (before, after) => Some (String a before, after)
      | None => if Ascii.eqb a c then Some (EmptyString, s') else None
      end
  end.

(** A stand-in geometry converter: a WKT text becomes a [Geometry] instance
    holding it; the empty text is refused. *)
Definition geometry_of_wkt (wkt : string) : result instance :=
  match wkt with
  | EmptyString => Raise (ValueError "empty geometry")
  | _ => Ok {| inst_cls := "Geometry";
               inst_attrs := [("wkt", VStr wkt)];
               model_fields_set := ["wkt"] |}
  end.

(** A service with a territory type, a footprint and a centroid. *)
Definition depot_dto : ServiceWithGeometryDTO.t string := {|
  ServiceWithGeometryDTO.service_id := 9;
  ServiceWithGeometryDTO.service_type_id := 6;
  ServiceWithGeometryDTO.urban_function_id := 2;
  ServiceWithGeometryDTO.service_type_name := "Depot";
  ServiceWithGeometryDTO.service_type_capacity_modeled := 12;
  ServiceWithGeometryDTO.service_type_code := "7";
  ServiceWithGeometryDTO.territory_type_id := Some 1%Z;
  ServiceWithGeometryDTO.territory_type_name := Some "City";
  ServiceWithGeometryDTO.name := Some "Depot 3";
  ServiceWithGeometryDTO.capacity_real := None;
  ServiceWithGeometryDTO.properties := [];
  ServiceWithGeometryDTO.geometry := "POLYGON ((0 0, 0 1, 1 1, 0 0))";
  ServiceWithGeometryDTO.centre_point := "POINT (0.3 0.6)";
  ServiceWithGeometryDTO.created_at := 1711470804;
  ServiceWithGeometryDTO.updated_at := 1711470804
|}.

(** The same service before its territory type was recorded, and with a
    footprint the converter refuses. *)
Definition unplaced_depot_dto : ServiceWithGeometryDTO.t string := {|
  ServiceWithGeometryDTO.service_id := 9;
  ServiceWithGeometryDTO.service_type_id := 6;
  ServiceWithGeometryDTO.urban_function_id := 2;
  ServiceWithGeometryDTO.service_type_name := "Depot";
  ServiceWithGeometryDTO.service_type_capacity_modeled := 12;
  ServiceWithGeometryDTO.service_type_code := "7";
  ServiceWithGeometryDTO.territory_type_id := None;
  ServiceWithGeometryDTO.territory_type_name := None;
  ServiceWithGeometryDTO.name := Some "Depot 3";
  ServiceWithGeometryDTO.capacity_real := None;
  ServiceWithGeometryDTO.properties := [];
  ServiceWithGeometryDTO.geometry := "";
  ServiceWithGeometryDTO.centre_point := "POINT (0.3 0.6)";
  ServiceWithGeometryDTO.created_at := 1711470804;
  ServiceWithGeometryDTO.updated_at := 1711470804
|}.

(** A service joined with three territory rows, the second of which came
    back without its identifier. *)
Definition ferry_dto : ServiceWithTerritoriesDTO.t := {|
  ServiceWithTerritoriesDTO.service_id := 11;
  ServiceWithTerritoriesDTO.service_type_id := 8;
  ServiceWithTerritoriesDTO.urban_function_id := 2;
  ServiceWithTerritoriesDTO.service_type_name := "Ferry";
  ServiceWithTerritoriesDTO.service_type_capacity_modeled := 300;
  ServiceWithTerritoriesDTO.service_type_code := "9";
  ServiceWithTerritoriesDTO.territory_type_id := Some 1%Z;
  ServiceWithTerritoriesDTO.territory_type_name := Some "City";
  ServiceWithTerritoriesDTO.name := None;
  ServiceWithTerritoriesDTO.capacity_real := None;
  ServiceWithTerritoriesDTO.properties := [];
  ServiceWithTerritoriesDTO.territories :=
    [ [("territory_id", VInt 10); ("name", VStr "North")];
      [("name", VStr "Harbour")];
      [("territory_id", VInt 3)] ];
  ServiceWithTerritoriesDTO.created_at := 1711470804;
  ServiceWithTerritoriesDTO.updated_at := 1711470804
|}.

(** The same service and the same two territory rows, with no territory
    type recorded: both joined territory-type columns are null. *)
Definition unzoned_clinic_dto : ServiceWithTerritoriesDTO.t := {|
  ServiceWithTerritoriesDTO.service_id := 5;
  ServiceWithTerritoriesDTO.service_type_id := 4;
  ServiceWithTerritoriesDTO.urban_function_id := 3;
  ServiceWithTerritoriesDTO.service_type_name := "Clinic";
  ServiceWithTerritoriesDTO.service_type_capacity_modeled := 80;
  ServiceWithTerritoriesDTO.service_type_code := "2";
  ServiceWithTerritoriesDTO.territory_type_id := None;
  ServiceWithTerritoriesDTO.territory_type_name := None;
  ServiceWithTerritoriesDTO.name := None;
  ServiceWithTerritoriesDTO.capacity_real := Some 40%Z;
  ServiceWithTerritoriesDTO.properties := [("floors", VInt 2)];
  ServiceWithTerritoriesDTO.territories :=
    [ [("territory_id", VInt 10); ("name", VStr "North")];
      [("territory_id", VInt 7); ("name", VStr "Harbour")] ];
  ServiceWithTerritoriesDTO.created_at := 1711470804;
  ServiceWithTerritoriesDTO.updated_at := 1711557204
|}.

(** ** Facts about the framework *)

Section Framework.
Context {rt : Runtime}.

Lemma validate_type_keeps_non_null (t : ftype) (v v' : value) :
  is_None v = false -> validate_type t v = Some v' -> is_None v' = false.
Proof.
  revert v v'.
  induction t as [ | | | | t IH | t IH | c ]; intros v v' Hv H.
  - destruct v; simpl in H; try discriminate;
      try (destruct (lax_int _); simpl in H; [ | discriminate ]);
      injection H as <-; reflexivity.
  - destruct v; simpl in H; try discriminate; injection H as <-; reflexivity.
  - destruct v; simpl in H; try discriminate;
      try (destruct (lax_datetime _); simpl in H; [ | discriminate ]);
      injection H as <-; reflexivity.
  - destruct v; simpl in H; try discriminate; injection H as <-; reflexivity.
  - destruct v; simpl in H; try discriminate; eapply IH; eauto.
  - destruct v; simpl in H; try discriminate.
    match type of H with option_map _ ?e = _ => destruct e end;
      simpl in H; [ | discriminate ].
    injection H as <-; reflexivity.
  - destruct v; simpl in H; try discriminate.
    destruct (String.eqb c cls); [ | discriminate ].
    injection H as <-; reflexivity.
Qed.

Lemma validate_type_int (v v' : value) :
  validate_type TInt v = Some v' -> is_None v = false /\ exists z, v' = VInt z.
Proof.
  destruct v; simpl; intros H; try discriminate;
    try (destruct (lax_int _); simpl in H; [ | discriminate ]);
    injection H as <-; split; eauto.
Qed.

Lemma validate_type_str (v v' : value) :
  validate_type TStr v = Some v' -> exists s, v = VStr s /\ v' = VStr s.
Proof.
  destruct v; simpl; intros H; try discriminate.
  injection H as <-; eauto.
Qed.

Lemma validate_type_dict (v v' : value) :
  validate_type TDictStrAny v = Some v' -> exists d, v = VDict d /\ v' = VDict d.
Proof.
  destruct v; simpl; intros H; try discriminate.
  injection H as <-; eauto.
Qed.

(** A list of instances of a class is a valid [list[cls]], unchanged. *)
Lemma validate_type_list_of_instances (c : string) (l : list value) :
  forallb (is_instance_of c) l = true ->
  validate_type (TList (TModel c)) (VList l) = Some (VList l).
Proof.
  intros H. simpl.
  induction l as [ | x xs IH ]; [ reflexivity | ].
  simpl in H. apply andb_true_iff in H as [Hx Hxs].
  specialize (IH Hxs).
  destruct x; simpl in Hx; try discriminate.
  rewrite Hx.
  match type of IH with option_map _ ?e = _ => destruct e as [ xs' | ] end;
    simpl in IH; [ | discriminate ].
  injection IH as ->. reflexivity.
Qed.

(** The attributes only carry declared names. *)
Lemma validate_fields_attr_names (fs : list field) (values : dict) (n : string) :
  ~ In n (map fname fs) ->
  dict_get (fst (fst (validate_fields fs values))) n = None.
Proof.
  induction fs as [ | f fs IH ]; simpl; intros Hn; [ reflexivity | ].
  assert (Hf : String.eqb n (fname f) = false).
  { apply String.eqb_neq. intros ->. apply Hn. now left. }
  assert (Hrest : ~ In n (map fname fs)) by (intros Hin; apply Hn; now right).
  specialize (IH Hrest).
  destruct (validate_fields fs values) as [[attrs set] errs]; simpl in *.
  destruct (validate_field f values); simpl; rewrite ?Hf; exact IH.
Qed.

(** The attribute stored for a declared field is what validating that field
    gave. *)
Lemma validate_fields_attr (fs : list field) (values : dict) (f : field) :
  NoDup (map fname fs) -> In f fs ->
  dict_get (fst (fst (validate_fields fs values))) (fname f) =
  match validate_field f values with
  | Supplied v | Defaulted v => Some v
  | Failed _ => None
  end.
Proof.
  induction fs as [ | g fs IH ]; simpl; intros Hnd Hin; [ contradiction | ].
  inversion Hnd as [ | ? ? Hg Hnd' ]; subst.
  pose proof (validate_fields_attr_names fs values (fname g) Hg) as Hnames.
  destruct Hin as [ -> | Hin ].
  - destruct (validate_fields fs values) as [[attrs set] errs]; simpl in *.
    destruct (validate_field f values); simpl; rewrite ?String.eqb_refl; auto.
  - assert (Hne : String.eqb (fname f) (fname g) = false).
    { apply String.eqb_neq. intros Heq. apply Hg. rewrite <- Heq.
      now apply in_map. }
    specialize (IH Hnd' Hin).
    destruct (validate_fields fs values) as [[attrs set] errs]; simpl in *.
    destruct (validate_field g values); simpl; rewrite ?Hne; exact IH.
Qed.

(** The fields set lists exactly the declared fields that were supplied. *)
Lemma validate_fields_set (fs : list field) (values : dict) (n : string) :
  In n (snd (fst (validate_fields fs values))) <->
  exists f v, In f fs /\ fname f = n /\ validate_field f values = Supplied v.
Proof.
  induction fs as [ | g fs IH ]; simpl.
  - split; [ contradiction | intros (f & v & [] & _) ].
  - destruct (validate_fields fs values) as [[attrs set] errs]; simpl in *.
    destruct (validate_field g values) as [ w | w | e ] eqn:Hg; simpl.
    + split.
      * intros [ <- | Hin ]; [ now exists g, w; auto | ].
        apply IH in Hin as (f & v & Hf & Hn & Hv). exists f, v; auto.
      * intros (f & v & [ -> | Hf ] & Hn & Hv); [ now left | ].
        right. apply IH. exists f, v; auto.
    + split.
      * intros Hin. apply IH in Hin as (f & v & Hf & Hn & Hv). exists f, v; auto.
      * intros (f & v & [ -> | Hf ] & Hn & Hv); [ congruence | ].
        apply IH. exists f, v; auto.
    + split.
      * intros Hin. apply IH in Hin as (f & v & Hf & Hn & Hv). exists f, v; auto.
      * intros (f & v & [ -> | Hf ] & Hn & Hv); [ congruence | ].
        apply IH. exists f, v; auto.
Qed.

(** No error is reported exactly when no declared field failed. *)
Lemma validate_fields_no_error (fs : list field) (values : dict) (f : field) :
  snd (validate_fields fs values) = [] -> In f fs ->
  exists v, validate_field f values = Supplied v \/ validate_field f values = Defaulted v.
Proof.
  induction fs as [ | g fs IH ]; simpl; intros He Hin; [ contradiction | ].
  destruct (validate_fields fs values) as [[attrs set] errs]; simpl in *.
  destruct (validate_field g values) as [ w | w | e ] eqn:Hg; simpl in He;
    try discriminate; subst errs.
  - destruct Hin as [ -> | Hin ]; [ exists w; auto | auto ].
  - destruct Hin as [ -> | Hin ]; [ exists w; auto | auto ].
Qed.

Lemma validate_fields_all_pass (fs : list field) (values : dict) :
  (forall f, In f fs -> exists v,
      validate_field f values = Supplied v \/ validate_field f values = Defaulted v) ->
  snd (validate_fields fs values) = [].
Proof.
  induction fs as [ | g fs IH ]; simpl; intros H; [ reflexivity | ].
  assert (IH' : snd (validate_fields fs values) = []) by (apply IH; auto).
  destruct (validate_fields fs values) as [[attrs set] errs]; simpl in *.
  destruct (H g (or_introl eq_refl)) as [v [ -> | -> ]]; exact IH'.
Qed.

(** What an accepted construction went through. *)
Lemma BaseModel_init_Ok (c : model_class) (values : dict) (r : instance) :
  BaseModel_init c values = Ok r ->
  exists values',
    run_before c values = Ok values' /\
    validate_fields (cls_fields c) values' = (inst_attrs r, model_fields_set r, []) /\
    inst_cls r = cls_name c.
Proof.
  unfold BaseModel_init. intros H.
  destruct (run_before c values) as [ values' | e ]; [ | destruct e; discriminate ].
  exists values'. split; [ reflexivity | ].
  destruct (validate_fields (cls_fields c) values') as [[attrs set] errs].
  destruct errs; [ | discriminate ].
  injection H as <-. auto.
Qed.

(** A construction whose hooks pass and whose fields all validate succeeds. *)
Lemma BaseModel_init_pass (c : model_class) (values values' : dict) :
  run_before c values = Ok values' ->
  snd (validate_fields (cls_fields c) values') = [] ->
  BaseModel_init c values =
  Ok {| inst_cls := cls_name c;
        inst_attrs := fst (fst (validate_fields (cls_fields c) values'));
        model_fields_set := snd (fst (validate_fields (cls_fields c) values')) |}.
Proof.
  unfold BaseModel_init. intros -> He.
  destruct (validate_fields (cls_fields c) values') as [[attrs set] errs].
  simpl in *. subst errs. reflexivity.
Qed.

End Framework.

(** ** The patch hooks *)

Lemma fstring_cannot_be_null (k : string) :
  fstring [FStr k; Lit " cannot be null"] = (k ++ " cannot be null")%string.
Proof. reflexivity. Qed.

Lemma first_null_sound (values : dict) (k : string) :
  first_null values = Some k -> In (k, VNone) values.
Proof.
  induction values as [ | [k' v] rest IH ]; simpl; [ discriminate | ].
  destruct v; simpl; auto.
  intros [= ->]. now left.
Qed.

Lemma first_null_complete (values : dict) (k : string) :
  In (k, VNone) values -> exists k0, first_null values = Some k0.
Proof.
  induction values as [ | [k' v] rest IH ]; simpl; [ contradiction | ].
  intros [ [= -> ->] | Hin ]; simpl; [ eauto | ].
  destruct (is_None v); eauto.
Qed.

Lemma first_null_none (values : dict) :
  first_null values = None <-> forall k v, In (k, v) values -> is_None v = false.
Proof.
  induction values as [ | [k' v'] rest IH ]; simpl.
  - split; [ intros _ k v [] | reflexivity ].
  - destruct (is_None v') eqn:Hv.
    + split; [ discriminate | ].
      intros H. specialize (H k' v' (or_introl eq_refl)). congruence.
    + rewrite IH. split.
      * intros H k v [ [= <- <-] | Hin ]; eauto.
      * intros H k v Hin. eauto.
Qed.

Lemma disallow_nulls_items_spec (values : dict) :
  ServicesDataPatch.disallow_nulls_items values =
  match first_null values with
  | Some k => Raise (ValueError (k ++ " cannot be null"))
  | None => Ok tt
  end.
Proof.
  induction values as [ | [k v] rest IH ]; simpl; [ reflexivity | ].
  destruct (is_None v); [ reflexivity | exact IH ].
Qed.

(** The two hooks of [ServicesDataPatch], run on a raw body. *)
Lemma patch_run_before (values : dict) :
  run_before ServicesDataPatch.cls values =
  match values with
  | [] => Raise (ValueError "request body cannot be empty")
  | _ :: _ =>
      match first_null values with
      | Some k => Raise (ValueError (k ++ " cannot be null"))
      | None => Ok values
      end
  end.
Proof.
  unfold run_before. cbn [cls_before ServicesDataPatch.cls rev app run_hooks].
  unfold ServicesDataPatch.disallow_nulls.
  rewrite disallow_nulls_items_spec.
  destruct values as [ | kv rest ]; [ reflexivity | ].
  destruct (first_null (kv :: rest)); reflexivity.
Qed.


(** ** Patch validation *)

(** C2. Validating a patch against an empty field set always fails with the
    validation error "request body cannot be empty": for [ServicesDataPatch],
    and for every model that carries its two hooks, whatever fields it
    declares. *)
Theorem patch_empty_body_rejected :
  forall (rt : Runtime),
    BaseModel_init ServicesDataPatch.cls [] =
      Raise (ValidationError "ServicesDataPatch" [value_error "request body cannot be empty"])
    /\ forall (name : string) (fields : list field),
        BaseModel_init {| cls_name := name; cls_fields := fields;
                          cls_before := cls_before ServicesDataPatch.cls |} [] =
          Raise (ValidationError name [value_error "request body cannot be empty"]).
Proof.
  intros rt. split; [ reflexivity | ]. intros name fields. reflexivity.
Qed.

(** C3 as stated fails: in a body with two null fields the error names the
    first of them, so for the second one no error names it. *)
Lemma patch_null_error_names_another_key :
  let body := [("name", VNone); ("capacity_real", VNone)] in
  dict_get body "capacity_real" = Some VNone
  /\ @BaseModel_init strict ServicesDataPatch.cls body =
       Raise (ValidationError "ServicesDataPatch" [value_error "name cannot be null"])
  /\ @BaseModel_init strict ServicesDataPatch.cls body <>
       Raise (ValidationError "ServicesDataPatch" [value_error "capacity_real cannot be null"]).
Proof.
  cbv zeta. split; [ reflexivity | ]. split; [ reflexivity | ].
  intros H. discriminate H.
Qed.

(** C3, amended. If some key of a patch body is null, validation fails with
    the validation error "<field> cannot be null" naming the first key, in the
    order of the body, whose value is null; when the key at hand is the only
    null one, it is the key named. *)
Theorem patch_null_rejected_naming_first_null :
  forall (rt : Runtime) (body : dict) (k : string),
    In (k, VNone) body ->
    exists k0,
      first_null body = Some k0
      /\ In (k0, VNone) body
      /\ BaseModel_init ServicesDataPatch.cls body =
           Raise (ValidationError "ServicesDataPatch" [value_error (k0 ++ " cannot be null")])
      /\ ((forall k', In (k', VNone) body -> k' = k) -> k0 = k).
Proof.
  intros rt body k Hin.
  destruct (first_null_complete body k Hin) as [k0 Hk0].
  exists k0. split; [ exact Hk0 | ].
  pose proof (first_null_sound body k0 Hk0) as Hin0.
  split; [ exact Hin0 | ]. split.
  - unfold BaseModel_init. rewrite patch_run_before, Hk0.
    destruct body; [ contradiction | reflexivity ].
  - intros Honly. now apply Honly.
Qed.

Lemma patch_null_rejected_naming_first_null_witness :
  exists k0,
    first_null [("service_type_id", VInt 1); ("name", VNone)] = Some k0
    /\ In (k0, VNone) [("service_type_id", VInt 1); ("name", VNone)]
    /\ @BaseModel_init strict ServicesDataPatch.cls [("service_type_id", VInt 1); ("name", VNone)] =
         Raise (ValidationError "ServicesDataPatch" [value_error (k0 ++ " cannot be null")])
    /\ ((forall k', In (k', VNone) [("service_type_id", VInt 1); ("name", VNone)] -> k' = "name") ->
        k0 = "name").
Proof.
  apply (patch_null_rejected_naming_first_null strict
           [("service_type_id", VInt 1); ("name", VNone)] "name").
  simpl. right. left. reflexivity.
Defined.

Lemma dict_get_In (d : dict) (k : string) (v : value) :
  dict_get d k = Some v -> In (k, v) d.
Proof.
  induction d as [ | [k' v'] rest IH ]; simpl; [ discriminate | ].
  destruct (String.eqb k k') eqn:Hk.
  - apply String.eqb_eq in Hk as ->. intros [= ->]. now left.
  - auto.
Qed.

Lemma patch_declared_NoDup : NoDup (declared ServicesDataPatch.cls).
Proof.
  unfold declared; simpl.
  repeat constructor; simpl; intuition discriminate.
Qed.

(** C4 as stated fails: after a one-field patch is accepted, the fields that
    were not supplied are attributes holding their declared default, [None];
    they are absent from [model_fields_set] only.  And a single non-null value
    is not enough to be accepted: it has to be of the field's type. *)
Lemma patch_unset_fields_hold_null :
  (exists r,
     @BaseModel_init strict ServicesDataPatch.cls [("service_type_id", VInt 1)] = Ok r
     /\ model_fields_set r = ["service_type_id"]
     /\ getattr r "territory_type_id" = Some VNone
     /\ getattr r "name" = Some VNone
     /\ getattr r "capacity_real" = Some VNone
     /\ getattr r "properties" = Some VNone)
  /\ @BaseModel_init strict ServicesDataPatch.cls [("properties", VStr "floors=2")] =
       Raise (ValidationError "ServicesDataPatch"
                [invalid_type "properties" (TOptional TDictStrAny)]).
Proof.
  split; [ | reflexivity ].
  eexists. split; [ reflexivity | ]. repeat split.
Qed.

(** C4, amended. A patch body supplying exactly one declared field, with a
    non-null value that is valid for the field's declared type, is accepted;
    the accepted record holds the validated value for that field and lists
    only that field in its fields set, and every other declared field is left
    out of the fields set while its attribute holds the declared default
    [None]. *)
Theorem patch_single_field_accepted :
  forall (rt : Runtime) (f : field) (v v' : value),
    In f (cls_fields ServicesDataPatch.cls) ->
    is_None v = false ->
    validate_type (fannot f) v = Some v' ->
    exists r,
      BaseModel_init ServicesDataPatch.cls [(fname f, v)] = Ok r
      /\ model_fields_set r = [fname f]
      /\ getattr r (fname f) = Some v'
      /\ is_None v' = false
      /\ forall g, In g (cls_fields ServicesDataPatch.cls) -> fname g <> fname f ->
           getattr r (fname g) = Some VNone /\ ~ In (fname g) (model_fields_set r).
Proof.
  intros rt f v v' Hf Hv Hty.
  pose proof (validate_type_keeps_non_null _ _ _ Hv Hty) as Hv'.
  unfold BaseModel_init. rewrite patch_run_before.
  cbn [first_null]. rewrite Hv.
  simpl in Hf.
  destruct Hf as [ <- | [ <- | [ <- | [ <- | [ <- | [] ]]]]];
    cbn -[validate_type]; cbn -[validate_type] in Hty; rewrite Hty;
    (eexists; split; [ reflexivity | ]);
    (split; [ reflexivity | ]); (split; [ reflexivity | ]); (split; [ exact Hv' | ]);
    intros g Hg Hne; simpl in Hg;
    destruct Hg as [ <- | [ <- | [ <- | [ <- | [ <- | [] ]]]]];
    simpl in Hne; try (exfalso; apply Hne; reflexivity);
    (split; [ reflexivity | simpl; intuition discriminate ]).
Qed.

Lemma patch_single_field_accepted_witness :
  exists r,
    @BaseModel_init strict ServicesDataPatch.cls [("name", VStr "School 12")] = Ok r
    /\ model_fields_set r = ["name"]
    /\ getattr r "name" = Some (VStr "School 12")
    /\ is_None (VStr "School 12") = false
    /\ forall g, In g (cls_fields ServicesDataPatch.cls) -> fname g <> "name" ->
         getattr r (fname g) = Some VNone /\ ~ In (fname g) (model_fields_set r).
Proof.
  apply (patch_single_field_accepted strict
           (Field "name" (TOptional TStr) (Default VNone)) (VStr "School 12") (VStr "School 12")).
  - simpl. right. right. left. reflexivity.
  - reflexivity.
  - reflexivity.
Defined.

(** C5 as stated fails: a body whose only key is not a declared field is
    accepted (undeclared keys are ignored), and then no declared field is
    present: the fields set is empty and every attribute is [None]. *)
Lemma patch_accepts_body_without_declared_field :
  let body := [("comment", VStr "no change")] in
  exists r,
    @BaseModel_init strict ServicesDataPatch.cls body = Ok r
    /\ model_fields_set r = []
    /\ forallb (fun n => match dict_get body n with None => true | Some _ => false end)
         (declared ServicesDataPatch.cls) = true
    /\ forallb (fun n => match getattr r n with Some VNone => true | _ => false end)
         (declared ServicesDataPatch.cls) = true.
Proof.
  cbv zeta. eexists. split; [ reflexivity | ]. repeat split.
Qed.

(** C5, amended. Every patch body that passes validation is non-empty and
    holds no null value, so it supplies at least one key with a concrete
    value; that key need not be a declared field.  The fields set of the
    accepted record is exactly the declared fields present in the body, and
    each of them holds a non-null value. *)
Theorem patch_accepted_body_nonempty_without_nulls :
  forall (rt : Runtime) (body : dict) (r : instance),
    BaseModel_init ServicesDataPatch.cls body = Ok r ->
    (exists k v, In (k, v) body /\ is_None v = false)
    /\ (forall k v, In (k, v) body -> is_None v = false)
    /\ (forall n, In n (model_fields_set r) <->
                  In n (declared ServicesDataPatch.cls) /\ dict_get body n <> None)
    /\ (forall n, In n (model_fields_set r) ->
                  exists v, getattr r n = Some v /\ is_None v = false).
Proof.
  intros rt body r H.
  apply BaseModel_init_Ok in H as (body' & Hpre & Hfields & _).
  rewrite patch_run_before in Hpre.
  destruct body as [ | kv rest ]; [ discriminate | ].
  destruct (first_null (kv :: rest)) eqn:Hnull; [ discriminate | ].
  injection Hpre as <-.
  pose proof (proj1 (first_null_none _) Hnull) as Hnn.
  assert (Herrs : snd (validate_fields (cls_fields ServicesDataPatch.cls) (kv :: rest)) = [])
    by (rewrite Hfields; reflexivity).
  assert (Hset : forall n, In n (model_fields_set r) <->
            exists f v, In f (cls_fields ServicesDataPatch.cls) /\ fname f = n
                        /\ validate_field f (kv :: rest) = Supplied v).
  { intros n. rewrite <- validate_fields_set, Hfields. reflexivity. }
  split; [ | split; [ exact Hnn | split ] ].
  - destruct kv as [k v]. exists k, v. split; [ now left | ].
    apply (Hnn k v). now left.
  - intros n. rewrite Hset. split.
    + intros (f & v & Hf & <- & Hv). split; [ now apply in_map | ].
      unfold validate_field in Hv.
      destruct (dict_get (kv :: rest) (fname f)); [ discriminate | ].
      destruct (default_value (fdflt f)); discriminate.
    + intros [Hdecl Hpresent]. apply in_map_iff in Hdecl as (f & <- & Hf).
      destruct (validate_fields_no_error _ _ f Herrs Hf) as [v [ Hv | Hv ]].
      * exists f, v. auto.
      * unfold validate_field in Hv.
        destruct (dict_get (kv :: rest) (fname f)); [ | contradiction ].
        destruct (validate_type (fannot f) v0); discriminate.
  - intros n Hn. apply Hset in Hn as (f & v' & Hf & <- & Hv).
    exists v'. split.
    + unfold getattr.
      pose proof (validate_fields_attr _ (kv :: rest) f patch_declared_NoDup Hf) as Hattr.
      rewrite Hfields, Hv in Hattr. exact Hattr.
    + unfold validate_field in Hv.
      destruct (dict_get (kv :: rest) (fname f)) as [ v | ] eqn:Hget.
      * destruct (validate_type (fannot f) v) as [ w | ] eqn:Hty; [ | discriminate ].
        injection Hv as ->.
        apply dict_get_In in Hget.
        eapply validate_type_keeps_non_null; [ | exact Hty ]. eauto.
      * destruct (default_value (fdflt f)); discriminate.
Qed.

Lemma patch_accepted_body_nonempty_without_nulls_witness :
  let body := [("capacity_real", VInt 250); ("comment", VStr "resurveyed")] in
  let r := {| inst_cls := "ServicesDataPatch";
              inst_attrs := [("service_type_id", VNone); ("territory_type_id", VNone);
                             ("name", VNone); ("capacity_real", VInt 250);
                             ("properties", VNone)];
              model_fields_set := ["capacity_real"] |} in
  (exists k v, In (k, v) body /\ is_None v = false)
  /\ (forall k v, In (k, v) body -> is_None v = false)
  /\ (forall n, In n (model_fields_set r) <->
                In n (declared ServicesDataPatch.cls) /\ dict_get body n <> None)
  /\ (forall n, In n (model_fields_set r) ->
                exists v, getattr r n = Some v /\ is_None v = false).
Proof.
  cbv zeta.
  apply (patch_accepted_body_nonempty_without_nulls strict
           [("capacity_real", VInt 250); ("comment", VStr "resurveyed")]).
  reflexivity.
Defined.

(** ** Create and replace shapes *)

Lemma post_declared_NoDup : NoDup (declared ServicesDataPost.cls).
Proof.
  unfold declared; simpl.
  repeat constructor; simpl; intuition discriminate.
Qed.

(** Finds, in a concrete declaration list, the field a goal asks for. *)
Ltac find_field :=
  lazymatch goal with
  | |- exists g, In g ?l /\ _ =>
      let l' := eval cbv in l in
      let rec go l :=
        lazymatch l with
        | ?x :: ?tl => first [ exists x; split; [ simpl; tauto | split; reflexivity ] | go tl ]
        end in
      go l'
  end.

(** An accepted field that has no default was supplied in the body. *)
Lemma required_field_supplied {rt : Runtime} (fs : list field) (values : dict) (f : field) :
  snd (validate_fields fs values) = [] -> In f fs -> fdflt f = Required ->
  exists v v', dict_get values (fname f) = Some v
               /\ validate_type (fannot f) v = Some v'
               /\ validate_field f values = Supplied v'.
Proof.
  intros He Hf Hreq.
  destruct (validate_fields_no_error fs values f He Hf) as [w Hw].
  unfold validate_field in *. rewrite Hreq in Hw |- *. simpl in Hw |- *.
  destruct (dict_get values (fname f)) as [ v | ]; [ | destruct Hw; discriminate ].
  destruct (validate_type (fannot f) v) as [ v' | ] eqn:Hty; [ | destruct Hw; discriminate ].
  exists v, v'. repeat split; assumption.
Qed.

(** The smallest create body: the three required identifiers and nothing else. *)
Lemma post_minimal_body_accepted (rt : Runtime) (a b c : Z) :
  BaseModel_init ServicesDataPost.cls
    [("physical_object_id", VInt a); ("object_geometry_id", VInt b); ("service_type_id", VInt c)] =
  Ok {| inst_cls := "ServicesDataPost";
        inst_attrs := [("physical_object_id", VInt a); ("object_geometry_id", VInt b);
                       ("service_type_id", VInt c); ("territory_type_id", VNone);
                       ("name", VNone); ("capacity_real", VNone); ("properties", VDict [])];
        model_fields_set := ["physical_object_id"; "object_geometry_id"; "service_type_id"] |}.
Proof. reflexivity. Qed.

(** C8. In every record a create body yields, [properties] is a map, never
    missing and never null; and when the body omits the key, it is the empty
    map (the field is then not in the fields set). *)
Theorem post_properties_default_empty :
  forall (rt : Runtime) (body : dict) (r : instance),
    BaseModel_init ServicesDataPost.cls body = Ok r ->
    (exists d, getattr r "properties" = Some (VDict d))
    /\ (dict_get body "properties" = None ->
        getattr r "properties" = Some (VDict [])
        /\ ~ In "properties" (model_fields_set r)).
Proof.
  intros rt body r H.
  apply BaseModel_init_Ok in H as (body' & Hpre & Hfields & _).
  injection Hpre as <-.
  set (f := Field "properties" TDictStrAny DefaultFactoryDict).
  assert (Hf : In f (cls_fields ServicesDataPost.cls)) by (simpl; tauto).
  pose proof (validate_fields_attr _ body f post_declared_NoDup Hf) as Hattr.
  rewrite Hfields in Hattr. simpl fst in Hattr. change (fname f) with "properties" in Hattr.
  assert (Herrs : snd (validate_fields (cls_fields ServicesDataPost.cls) body) = [])
    by (rewrite Hfields; reflexivity).
  destruct (validate_fields_no_error _ _ f Herrs Hf) as [w Hw].
  unfold getattr. split.
  - unfold validate_field in *. simpl in *.
    destruct (dict_get body "properties") as [ v | ].
    + destruct v; try (destruct Hw; discriminate). eauto.
    + eauto.
  - intros Habsent. split.
    + unfold validate_field in Hattr. simpl in Hattr. rewrite Habsent in Hattr. exact Hattr.
    + intros Hin.
      pose proof (proj1 (validate_fields_set (cls_fields ServicesDataPost.cls) body "properties")) as Hs.
      rewrite Hfields in Hs. destruct (Hs Hin) as (g & v & Hg & Hname & Hv).
      unfold validate_field in Hv. rewrite Hname, Habsent in Hv.
      destruct (default_value (fdflt g)); discriminate.
Qed.

Lemma post_properties_default_empty_witness :
  let r := {| inst_cls := "ServicesDataPost";
              inst_attrs := [("physical_object_id", VInt 7); ("object_geometry_id", VInt 8);
                             ("service_type_id", VInt 3); ("territory_type_id", VNone);
                             ("name", VNone); ("capacity_real", VNone); ("properties", VDict [])];
              model_fields_set := ["physical_object_id"; "object_geometry_id"; "service_type_id"] |} in
  (exists d, getattr r "properties" = Some (VDict d))
  /\ (dict_get [("physical_object_id", VInt 7); ("object_geometry_id", VInt 8);
                ("service_type_id", VInt 3)] "properties" = None ->
      getattr r "properties" = Some (VDict [])
      /\ ~ In "properties" (model_fields_set r)).
Proof.
  cbv zeta.
  apply (post_properties_default_empty strict
           [("physical_object_id", VInt 7); ("object_geometry_id", VInt 8);
            ("service_type_id", VInt 3)]).
  reflexivity.
Defined.

(** C9 as stated fails: the replace shape declares neither
    [physical_object_id] nor [object_geometry_id], two required fields of the
    create shape, and accepts a body that carries neither. *)
Lemma put_accepts_body_lacking_create_fields :
  let body := [("service_type_id", VInt 1); ("territory_type_id", VNone); ("name", VNone);
               ("capacity_real", VNone); ("properties", VDict [])] in
  (exists r, @BaseModel_init strict ServicesDataPut.cls body = Ok r)
  /\ mem "physical_object_id" (declared ServicesDataPost.cls) = true
  /\ mem "physical_object_id" (declared ServicesDataPut.cls) = false
  /\ dict_get body "physical_object_id" = None
  /\ mem "object_geometry_id" (declared ServicesDataPost.cls) = true
  /\ mem "object_geometry_id" (declared ServicesDataPut.cls) = false
  /\ dict_get body "object_geometry_id" = None.
Proof.
  cbv zeta. split; [ eexists; reflexivity | ]. repeat split.
Qed.

(** C9, amended. The replace shape declares the create shape's fields other
    than [physical_object_id] and [object_geometry_id], with the same types
    and every one of them required: a body is accepted by [ServicesDataPut]
    only if all five of the fields it declares are present. *)
Theorem put_requires_all_declared_fields :
  forall (rt : Runtime) (body : dict) (r : instance),
    BaseModel_init ServicesDataPut.cls body = Ok r ->
    (forall n, In n (declared ServicesDataPut.cls) ->
               (exists v, dict_get body n = Some v) /\ In n (model_fields_set r))
    /\ declared ServicesDataPost.cls =
         ["physical_object_id"; "object_geometry_id"] ++ declared ServicesDataPut.cls
    /\ (forall f, In f (cls_fields ServicesDataPut.cls) ->
                  fdflt f = Required
                  /\ exists g, In g (cls_fields ServicesDataPost.cls)
                               /\ fname g = fname f /\ fannot g = fannot f).
Proof.
  intros rt body r H.
  apply BaseModel_init_Ok in H as (body' & Hpre & Hfields & _).
  injection Hpre as <-.
  assert (Herrs : snd (validate_fields (cls_fields ServicesDataPut.cls) body) = [])
    by (rewrite Hfields; reflexivity).
  assert (Hreq : forall f, In f (cls_fields ServicesDataPut.cls) -> fdflt f = Required).
  { intros f Hf. simpl in Hf.
    destruct Hf as [ <- | [ <- | [ <- | [ <- | [ <- | [] ]]]]]; reflexivity. }
  split; [ | split; [ reflexivity | ] ].
  - intros n Hn. apply in_map_iff in Hn as (f & <- & Hf).
    destruct (required_field_supplied _ _ f Herrs Hf (Hreq f Hf)) as (v & v' & Hget & _ & Hv).
    split; [ eauto | ].
    pose proof (proj2 (validate_fields_set (cls_fields ServicesDataPut.cls) body (fname f))) as Hs.
    rewrite Hfields in Hs. apply Hs. exists f, v'. auto.
  - intros f Hf. split; [ auto | ]. simpl in Hf.
    destruct Hf as [ <- | [ <- | [ <- | [ <- | [ <- | [] ]]]]]; find_field.
Qed.

Lemma put_requires_all_declared_fields_witness :
  let body := [("service_type_id", VInt 1); ("territory_type_id", VNone); ("name", VStr "Clinic");
               ("capacity_real", VInt 40); ("properties", VDict [])] in
  let r := {| inst_cls := "ServicesDataPut";
              inst_attrs := [("service_type_id", VInt 1); ("territory_type_id", VNone);
                             ("name", VStr "Clinic"); ("capacity_real", VInt 40);
                             ("properties", VDict [])];
              model_fields_set := ["service_type_id"; "territory_type_id"; "name";
                                   "capacity_real"; "properties"] |} in
  (forall n, In n (declared ServicesDataPut.cls) ->
             (exists v, dict_get body n = Some v) /\ In n (model_fields_set r))
  /\ declared ServicesDataPost.cls =
       ["physical_object_id"; "object_geometry_id"] ++ declared ServicesDataPut.cls
  /\ (forall f, In f (cls_fields ServicesDataPut.cls) ->
                fdflt f = Required
                /\ exists g, In g (cls_fields ServicesDataPost.cls)
                             /\ fname g = fname f /\ fannot g = fannot f).
Proof.
  cbv zeta.
  apply (put_requires_all_declared_fields strict
           [("service_type_id", VInt 1); ("territory_type_id", VNone); ("name", VStr "Clinic");
            ("capacity_real", VInt 40); ("properties", VDict [])]).
  reflexivity.
Defined.

(** C10. The indicator create shape requires [measurement_unit_id] and
    [parent_id] as non-null integers: every body [IndicatorsPost] accepts
    supplies both keys with a non-null value and the record carries an
    integer for each, so a root indicator (no parent) or one without a
    measurement unit cannot be expressed.  The read-side [Indicators] schema
    declares both Optional and its projection passes a null through. *)
Theorem indicators_post_requires_parent_and_unit :
  forall (rt : Runtime) (body : dict) (r : instance),
    BaseModel_init IndicatorsPost.cls body = Ok r ->
    (exists v p, dict_get body "parent_id" = Some v /\ is_None v = false
                 /\ getattr r "parent_id" = Some (VInt p))
    /\ (exists v u, dict_get body "measurement_unit_id" = Some v /\ is_None v = false
                    /\ getattr r "measurement_unit_id" = Some (VInt u))
    /\ annotation Indicators.cls "parent_id" = Some (TOptional TInt)
    /\ annotation Indicators.cls "measurement_unit_id" = Some (TOptional TInt)
    /\ (forall dto, exists i,
          Indicators.from_dto dto = Ok i
          /\ getattr i "parent_id" = Some (opt_int (IndicatorsDTO.parent_id dto))
          /\ getattr i "measurement_unit_id" =
               Some (opt_int (IndicatorsDTO.measurement_unit_id dto))).
Proof.
  intros rt body r H.
  apply BaseModel_init_Ok in H as (body' & Hpre & Hfields & _).
  injection Hpre as <-.
  assert (Hnd : NoDup (map fname (cls_fields IndicatorsPost.cls)))
    by (simpl; repeat constructor; simpl; intuition discriminate).
  assert (Herrs : snd (validate_fields (cls_fields IndicatorsPost.cls) body) = [])
    by (rewrite Hfields; reflexivity).
  assert (Hint : forall n, In (Field n TInt Required) (cls_fields IndicatorsPost.cls) ->
            exists v p, dict_get body n = Some v /\ is_None v = false
                        /\ getattr r n = Some (VInt p)).
  { intros n Hn.
    destruct (required_field_supplied _ _ _ Herrs Hn eq_refl) as (v & v' & Hget & Hty & Hv).
    simpl in Hget, Hty.
    destruct (validate_type_int v v' Hty) as [Hnn [p ->]].
    exists v, p. repeat split; try assumption.
    pose proof (validate_fields_attr _ body _ Hnd Hn) as Hattr.
    rewrite Hfields, Hv in Hattr. exact Hattr. }
  split; [ apply Hint; simpl; tauto | ].
  split; [ apply Hint; simpl; tauto | ].
  split; [ reflexivity | ].
  split; [ reflexivity | ].
  intros [iid nf ns mu lv ll pid].
  destruct mu, pid; (eexists; split; [ reflexivity | split; reflexivity ]).
Qed.

Lemma indicators_post_requires_parent_and_unit_witness :
  let body := [("name_full", VStr "Resident population"); ("name_short", VStr "Population");
               ("measurement_unit_id", VInt 1); ("level", VInt 2);
               ("list_label", VStr "1.1"); ("parent_id", VInt 1)] in
  let r := {| inst_cls := "IndicatorsPost";
              inst_attrs := body;
              model_fields_set := ["name_full"; "name_short"; "measurement_unit_id"; "level";
                                   "list_label"; "parent_id"] |} in
  (exists v p, dict_get body "parent_id" = Some v /\ is_None v = false
               /\ getattr r "parent_id" = Some (VInt p))
  /\ (exists v u, dict_get body "measurement_unit_id" = Some v /\ is_None v = false
                  /\ getattr r "measurement_unit_id" = Some (VInt u))
  /\ annotation Indicators.cls "parent_id" = Some (TOptional TInt)
  /\ annotation Indicators.cls "measurement_unit_id" = Some (TOptional TInt)
  /\ (forall dto, exists i,
        @Indicators.from_dto strict dto = Ok i
        /\ getattr i "parent_id" = Some (opt_int (IndicatorsDTO.parent_id dto))
        /\ getattr i "measurement_unit_id" =
             Some (opt_int (IndicatorsDTO.measurement_unit_id dto))).
Proof.
  cbv zeta.
  apply (indicators_post_requires_parent_and_unit strict
           [("name_full", VStr "Resident population"); ("name_short", VStr "Population");
            ("measurement_unit_id", VInt 1); ("level", VInt 2);
            ("list_label", VStr "1.1"); ("parent_id", VInt 1)]).
  reflexivity.
Defined.

(** ** Error rendering *)

(** The decimal numeral [str] gives an integer reads back as that integer. *)
Lemma str_of_int_reads_back (z : Z) :
  option_map Z.of_int (NilZero.int_of_string (str_of_int z)) = Some z.
Proof.
  unfold str_of_int.
  destruct z as [ | p | p ].
  - reflexivity.
  - rewrite NilZero.isi.
    + cbn [option_map]. f_equal. apply (DecimalZ.of_to (Z.pos p)).
    + simpl. intros [= H]. now apply (Unsigned.to_uint_nonnil p).
    + discriminate.
  - rewrite NilZero.isi.
    + cbn [option_map]. f_equal. apply (DecimalZ.of_to (Z.neg p)).
    + discriminate.
    + simpl. intros [= H]. now apply (Unsigned.to_uint_nonnil p).
Qed.

Example entity_not_found_territory_42 :
  EntityNotFoundById.__str__ (EntityNotFoundById.__init__ 42 "territory") =
  "Entity 'territory' with id=42 is not found".
Proof. reflexivity. Qed.

(** C6. For every identifier and entity kind, [EntityNotFoundById(id, kind)]
    renders "Entity '<kind>' with id=<id> is not found", with <id> the decimal
    numeral of the identifier, and [get_status_code] returns 404 whatever the
    error holds. *)
Theorem entity_not_found_message_and_status :
  forall (id : Z) (kind : string),
    EntityNotFoundById.__str__ (EntityNotFoundById.__init__ id kind) =
      ("Entity '" ++ kind ++ "' with id=" ++ str_of_int id ++ " is not found")%string
    /\ option_map Z.of_int (NilZero.int_of_string (str_of_int id)) = Some id
    /\ EntityNotFoundById.get_status_code (EntityNotFoundById.__init__ id kind) = 404%Z
    /\ forall e : EntityNotFoundById.t, EntityNotFoundById.get_status_code e = 404%Z.
Proof.
  intros id kind. split; [ | split; [ apply str_of_int_reads_back | split; reflexivity ] ].
  reflexivity.
Qed.

(** ** DTO projection *)

Example services_data_from_school_dto (rt : Runtime) :
  ServicesData.from_dto school_dto =
  Raise (ValidationError "TerritoryType"
           [invalid_type "territory_type_id" TInt; invalid_type "name" TStr]).
Proof. reflexivity. Qed.

(** X18. The projection never yields a record without a territory type: the
    nested [TerritoryType] is constructed unconditionally, so a record that
    comes back holds an instance of it, never [None]. *)
Lemma services_data_from_dto_territory_type_present
    (rt : Runtime) (dto : ServiceDTO.t) (r : instance) :
  ServicesData.from_dto dto = Ok r ->
  exists attrs set,
    getattr r "territory_type" = Some (VModel "TerritoryType" attrs set).
Proof.
  destruct dto as [sid stid ufid stname stcap stcode ttid ttname nm cap props cat uat].
  destruct ttid as [ tid | ], ttname as [ tname | ]; try discriminate.
  destruct nm, cap; intros [= <-]; do 2 eexists; reflexivity.
Qed.

(** With both territory-type columns set the projection succeeds and carries
    every column over. *)
Lemma services_data_from_dto_ok
    (rt : Runtime) (dto : ServiceDTO.t) (tid : Z) (tname : string) :
  ServiceDTO.territory_type_id dto = Some tid ->
  ServiceDTO.territory_type_name dto = Some tname ->
  exists r,
    ServicesData.from_dto dto = Ok r
    /\ getattr r "service_id" = Some (VInt (ServiceDTO.service_id dto))
    /\ getattr r "name" = Some (opt_str (ServiceDTO.name dto))
    /\ getattr r "capacity_real" = Some (opt_int (ServiceDTO.capacity_real dto))
    /\ getattr r "properties" = Some (VDict (ServiceDTO.properties dto))
    /\ getattr r "created_at" = Some (VDatetime (ServiceDTO.created_at dto))
    /\ getattr r "updated_at" = Some (VDatetime (ServiceDTO.updated_at dto)).
Proof.
  destruct dto as [sid stid ufid stname stcap stcode ttid ttname nm cap props cat uat].
  simpl. intros -> ->.
  destruct nm, cap; (eexists; split; [ reflexivity | repeat split ]).
Qed.

(** C1, at the failing input.  A [ServiceDTO] whose territory-type columns are
    null is not projected: [from_dto] builds the nested [TerritoryType] from
    the null columns and that construction raises a validation error,
    although the schema declares the nested field Optional. *)
Theorem services_data_from_dto_null_territory_type_raises :
  forall (rt : Runtime) (dto : ServiceDTO.t),
    ServiceDTO.territory_type_id dto = None ->
    ServiceDTO.territory_type_name dto = None ->
    exists e errs,
      ServicesData.from_dto dto = Raise (ValidationError "TerritoryType" (e :: errs)).
Proof.
  intros rt dto Hid Hname.
  destruct dto as [sid stid ufid stname stcap stcode ttid ttname nm cap props cat uat].
  simpl in Hid, Hname. subst ttid ttname.
  do 2 eexists; reflexivity.
Qed.

Lemma services_data_from_dto_null_territory_type_raises_witness :
  exists e errs,
    @ServicesData.from_dto strict school_dto =
    Raise (ValidationError "TerritoryType" (e :: errs)).
Proof.
  apply (services_data_from_dto_null_territory_type_raises strict school_dto);
    reflexivity.
Defined.

(** One well-formed row gives one territory reference holding its pair. *)
Lemma short_territory_of_row (rt : Runtime) (row : dict) :
  well_formed_row row = true ->
  exists t,
    ServiceWithTerritories.short_territory row = Ok t
    /\ is_instance_of "ShortTerritory" t = true
    /\ reference_pair t = row_pair row.
Proof.
  unfold well_formed_row, ServiceWithTerritories.short_territory, getitem, row_pair.
  destruct (dict_get row "territory_id") as [ [ | | i | | | | | ] | ]; try discriminate.
  destruct (dict_get row "name") as [ [ | | | s | | | | ] | ]; try discriminate.
  intros _. eexists. split; [ reflexivity | split; reflexivity ].
Qed.

(** The comprehension over well-formed rows: one reference per row, in order. *)
Lemma territories_of_rows (rt : Runtime) (rows : list dict) :
  forallb well_formed_row rows = true ->
  exists ts,
    comprehension ServiceWithTerritories.short_territory rows = Ok ts
    /\ forallb (is_instance_of "ShortTerritory") ts = true
    /\ map reference_pair ts = map row_pair rows.
Proof.
  induction rows as [ | row rows IH ]; intros H.
  - exists []. repeat split.
  - simpl in H. apply andb_true_iff in H as [Hrow Hrows].
    destruct (short_territory_of_row rt row Hrow) as (t & Ht & Hinst & Hpair).
    destruct (IH Hrows) as (ts & Hts & Hall & Hpairs).
    exists (t :: ts). cbn [comprehension]. rewrite Ht, Hts. simpl.
    rewrite Hinst, Hall, Hpair, Hpairs. repeat split.
Qed.

(** C7, on the code.  Take a [ServiceWithTerritoriesDTO] whose territory rows
    each hold an integer identifier and a name.  When both territory-type
    columns are set, the projection succeeds and carries the source fields
    over: identifier, name, capacity and both timestamps unchanged, the
    properties map as it is, the joined type columns regrouped in the nested
    [ServiceTypes] and [TerritoryType], and a [territories] list with one
    [ShortTerritory] per row whose (territory_id, name) pairs equal the rows'
    pairs, element for element and in the same order.  When both
    territory-type columns are null, which the optional nested territory
    type allows, nothing is carried over: the projection raises the
    validation error of the nested [TerritoryType]. *)
Theorem service_with_territories_from_dto_carries_or_raises :
  forall (rt : Runtime) (dto : ServiceWithTerritoriesDTO.t),
    forallb well_formed_row (ServiceWithTerritoriesDTO.territories dto) = true ->
    (forall tid tname,
       ServiceWithTerritoriesDTO.territory_type_id dto = Some tid ->
       ServiceWithTerritoriesDTO.territory_type_name dto = Some tname ->
       exists r ts,
         ServiceWithTerritories.from_dto dto = Ok r
         /\ getattr r "service_id" = Some (VInt (ServiceWithTerritoriesDTO.service_id dto))
         /\ getattr r "name" = Some (opt_str (ServiceWithTerritoriesDTO.name dto))
         /\ getattr r "capacity_real" =
              Some (opt_int (ServiceWithTerritoriesDTO.capacity_real dto))
         /\ getattr r "properties" = Some (VDict (ServiceWithTerritoriesDTO.properties dto))
         /\ getattr r "created_at" = Some (VDatetime (ServiceWithTerritoriesDTO.created_at dto))
         /\ getattr r "updated_at" = Some (VDatetime (ServiceWithTerritoriesDTO.updated_at dto))
         /\ getattr r "service_type" =
              Some (VModel "ServiceTypes"
                      [("service_type_id", VInt (ServiceWithTerritoriesDTO.service_type_id dto));
                       ("urban_function_id",
                        VInt (ServiceWithTerritoriesDTO.urban_function_id dto));
                       ("name", VStr (ServiceWithTerritoriesDTO.service_type_name dto));
                       ("capacity_modeled",
                        VInt (ServiceWithTerritoriesDTO.service_type_capacity_modeled dto));
                       ("code", VStr (ServiceWithTerritoriesDTO.service_type_code dto))]
                      ["service_type_id"; "urban_function_id"; "name"; "capacity_modeled";
                       "code"])
         /\ getattr r "territory_type" =
              Some (VModel "TerritoryType"
                      [("territory_type_id", VInt tid); ("name", VStr tname)]
                      ["territory_type_id"; "name"])
         /\ getattr r "territories" = Some (VList ts)
         /\ forallb (is_instance_of "ShortTerritory") ts = true
         /\ map reference_pair ts = map row_pair (ServiceWithTerritoriesDTO.territories dto))
    /\ (ServiceWithTerritoriesDTO.territory_type_id dto = None ->
        ServiceWithTerritoriesDTO.territory_type_name dto = None ->
        exists e errs,
          ServiceWithTerritories.from_dto dto =
          Raise (ValidationError "TerritoryType" (e :: errs))).
Proof.
  intros rt dto Hrows.
  destruct dto as [sid stid ufid stname stcap stcode ttid ttname nm cap props rows cat uat].
  simpl in Hrows |- *. split.
  - intros tid tname -> ->.
    destruct (territories_of_rows rt _ Hrows) as (ts & Hts & Hall & Hpairs).
    pose proof (validate_type_list_of_instances "ShortTerritory" ts Hall) as Hlist.
    unfold ServiceWithTerritories.from_dto. cbn -[validate_type comprehension].
    rewrite Hts. cbn -[validate_type]. rewrite Hlist.
    destruct nm, cap; (do 2 eexists; split; [ reflexivity | ]);
      repeat split; assumption.
  - intros -> ->. do 2 eexists. reflexivity.
Qed.

Lemma service_with_territories_from_dto_carries_or_raises_witness :
  forallb well_formed_row (ServiceWithTerritoriesDTO.territories unzoned_clinic_dto) = true
  /\ exists e errs,
       @ServiceWithTerritories.from_dto strict unzoned_clinic_dto =
       Raise (ValidationError "TerritoryType" (e :: errs)).
Proof.
  split; [ reflexivity | ].
  apply (proj2 (service_with_territories_from_dto_carries_or_raises strict
                  unzoned_clinic_dto eq_refl));
    reflexivity.
Defined.

(** The territories of [clinic_dto], whose territory type is set, come out
    as its rows' pairs. *)
Example service_with_territories_from_clinic_dto :
  exists r ts,
    @ServiceWithTerritories.from_dto strict clinic_dto = Ok r
    /\ getattr r "territories" = Some (VList ts)
    /\ map reference_pair ts =
         [(Some (VInt 10), Some (VStr "North")); (Some (VInt 7), Some (VStr "Harbour"))].
Proof.
  do 2 eexists. split; [ reflexivity | ]. split; reflexivity.
Qed.

(** X12. The same unconditional construction sits in
    [ServiceWithTerritories.from_dto]: with null territory-type columns the
    projection raises the validation error of the nested [TerritoryType]
    before anything is carried over, whatever the territory rows are (they
    are not read, so a row without its key is not reported). *)
Lemma service_with_territories_from_dto_null_territory_type
    (rt : Runtime) (dto : ServiceWithTerritoriesDTO.t) :
  ServiceWithTerritoriesDTO.territory_type_id dto = None ->
  ServiceWithTerritoriesDTO.territory_type_name dto = None ->
  exists e errs,
    ServiceWithTerritories.from_dto dto = Raise (ValidationError "TerritoryType" (e :: errs)).
Proof.
  intros Hid Hname.
  destruct dto as [sid stid ufid stname stcap stcode ttid ttname nm cap props rows cat uat].
  simpl in Hid, Hname. subst ttid ttname.
  do 2 eexists; reflexivity.
Qed.

(** ** More on the framework *)

Lemma run_before_no_hooks (c : model_class) (values : dict) :
  cls_before c = [] -> run_before c values = Ok values.
Proof. unfold run_before. intros ->. reflexivity. Qed.

Lemma validate_field_supplied {rt : Runtime} (f : field) (values : dict) (v' : value) :
  validate_field f values = Supplied v' <->
  exists v, dict_get values (fname f) = Some v /\ validate_type (fannot f) v = Some v'.
Proof.
  unfold validate_field. split.
  - destruct (dict_get values (fname f)) as [ v | ].
    + destruct (validate_type (fannot f) v) as [ w | ] eqn:Hty; [ | discriminate ].
      intros [= <-]. eauto.
    + destruct (default_value (fdflt f)); discriminate.
  - intros (v & -> & ->). reflexivity.
Qed.

Lemma validate_field_defaulted {rt : Runtime} (f : field) (values : dict) (d : value) :
  validate_field f values = Defaulted d <->
  dict_get values (fname f) = None /\ default_value (fdflt f) = Some d.
Proof.
  unfold validate_field. split.
  - destruct (dict_get values (fname f)) as [ v | ].
    + destruct (validate_type (fannot f) v); discriminate.
    + destruct (default_value (fdflt f)) as [ w | ]; [ | discriminate ].
      intros [= <-]. auto.
  - intros [-> ->]. reflexivity.
Qed.

(** Acceptance, once the hooks have passed: every declared field validates. *)
Lemma init_accepts_iff {rt : Runtime} (c : model_class) (values : dict) :
  run_before c values = Ok values ->
  (exists r, BaseModel_init c values = Ok r) <->
  (forall f, In f (cls_fields c) ->
     exists v, validate_field f values = Supplied v \/ validate_field f values = Defaulted v).
Proof.
  intros Hpre. split.
  - intros [r H] f Hf.
    apply BaseModel_init_Ok in H as (values' & Hpre' & Hfields & _).
    rewrite Hpre in Hpre'. injection Hpre' as <-.
    apply (validate_fields_no_error (cls_fields c) values f); [ | exact Hf ].
    rewrite Hfields. reflexivity.
  - intros Hall. eexists.
    apply (BaseModel_init_pass c values values Hpre).
    now apply validate_fields_all_pass.
Qed.

(** The attribute an accepted record holds for a declared field. *)
Lemma init_getattr {rt : Runtime} (c : model_class) (values : dict) (r : instance) (f : field) :
  run_before c values = Ok values ->
  NoDup (declared c) ->
  BaseModel_init c values = Ok r ->
  In f (cls_fields c) ->
  exists v,
    getattr r (fname f) = Some v
    /\ (validate_field f values = Supplied v \/ validate_field f values = Defaulted v).
Proof.
  intros Hpre Hnd H Hf.
  apply BaseModel_init_Ok in H as (values' & Hpre' & Hfields & _).
  rewrite Hpre in Hpre'. injection Hpre' as <-.
  pose proof (validate_fields_attr _ values f Hnd Hf) as Hattr.
  rewrite Hfields in Hattr. simpl fst in Hattr.
  assert (Herrs : snd (validate_fields (cls_fields c) values) = [])
    by (rewrite Hfields; reflexivity).
  destruct (validate_fields_no_error _ _ f Herrs Hf) as [v [ Hv | Hv ]];
    rewrite Hv in Hattr; exists v; auto.
Qed.

(** Whatever an annotation admits, its Optional admits with the same result. *)
Lemma validate_type_optional_admits {rt : Runtime} (t : ftype) (v v' : value) :
  validate_type t v = Some v' -> validate_type (TOptional t) v = Some v'.
Proof.
  destruct v; try (simpl; intros H; exact H).
  destruct t; simpl; try discriminate. auto.
Qed.

(** ** Patch validation, completed *)

(** X1. A body is accepted by [ServicesDataPatch] exactly when it is not
    empty, none of its values (under any key) is null, and every declared
    field it carries holds a value valid for the field's type. *)
Theorem patch_accepts_iff :
  forall (rt : Runtime) (body : dict),
    (exists r, BaseModel_init ServicesDataPatch.cls body = Ok r) <->
    (body <> []
     /\ first_null body = None
     /\ forall f v, In f (cls_fields ServicesDataPatch.cls) ->
                    dict_get body (fname f) = Some v ->
                    exists v', validate_type (fannot f) v = Some v').
Proof.
  intros rt body. split.
  - intros [r H].
    pose proof (BaseModel_init_Ok _ _ _ H) as (body' & Hpre & _).
    rewrite patch_run_before in Hpre.
    destruct body as [ | kv rest ]; [ discriminate | ].
    destruct (first_null (kv :: rest)) eqn:Hnull; [ discriminate | ].
    split; [ discriminate | ]. split; [ reflexivity | ].
    intros f v Hf Hget.
    assert (Hrun : run_before ServicesDataPatch.cls (kv :: rest) = Ok (kv :: rest))
      by (rewrite patch_run_before, Hnull; reflexivity).
    destruct (proj1 (init_accepts_iff _ _ Hrun) (ex_intro _ r H) f Hf) as [w [ Hw | Hw ]].
    + apply validate_field_supplied in Hw as (v0 & Hget0 & Hty).
      rewrite Hget in Hget0. injection Hget0 as <-. eauto.
    + apply validate_field_defaulted in Hw as [Hget0 _]. congruence.
  - intros (Hne & Hnull & Hvalid).
    assert (Hrun : run_before ServicesDataPatch.cls body = Ok body).
    { rewrite patch_run_before, Hnull. destruct body; [ contradiction | reflexivity ]. }
    apply (init_accepts_iff _ _ Hrun).
    intros f Hf.
    destruct (dict_get body (fname f)) as [ v | ] eqn:Hget.
    + destruct (Hvalid f v Hf Hget) as [v' Hty].
      exists v'. left. apply validate_field_supplied. eauto.
    + exists VNone. right. apply validate_field_defaulted. split; [ exact Hget | ].
      simpl in Hf.
      destruct Hf as [ <- | [ <- | [ <- | [ <- | [ <- | [] ]]]]]; reflexivity.
Qed.


(** ** One body, two shapes *)

Lemma validate_type_optional_inv {rt : Runtime} (t : ftype) (v v' : value) :
  validate_type (TOptional t) v = Some v' ->
  (v = VNone /\ v' = VNone) \/ (is_None v = false /\ validate_type t v = Some v').
Proof.
  destruct v; simpl; intros H; try (right; split; [ reflexivity | exact H ]).
  left. injection H as <-. auto.
Qed.

Lemma present_supplied {rt : Runtime} (f : field) (values : dict) (v : value) :
  validate_field f values = Supplied v \/ validate_field f values = Defaulted v ->
  dict_get values (fname f) <> None ->
  validate_field f values = Supplied v.
Proof.
  intros [ H | H ] Hpresent; [ exact H | ].
  apply validate_field_defaulted in H as [Habsent _]. contradiction.
Qed.

(** A body the first shape accepts is accepted by the second one, with the
    same attribute values, as far as the second shape's fields take over from
    the first's or validate on their own. *)
Lemma shape_transfer {rt : Runtime} (A B : model_class) (values : dict) (r : instance) :
  run_before A values = Ok values ->
  run_before B values = Ok values ->
  NoDup (declared A) ->
  NoDup (declared B) ->
  BaseModel_init A values = Ok r ->
  (forall f, In f (cls_fields B) ->
     takes_over A f values
     \/ exists v, validate_field f values = Supplied v \/ validate_field f values = Defaulted v) ->
  exists r',
    BaseModel_init B values = Ok r'
    /\ forall f, In f (cls_fields B) -> takes_over A f values ->
                 getattr r' (fname f) = getattr r (fname f).
Proof.
  intros HpreA HpreB HndA HndB HA Hfields.
  assert (Hover : forall f, takes_over A f values ->
            exists v', validate_field f values = Supplied v'
                       /\ getattr r (fname f) = Some v').
  { intros f (Hpresent & g & Hg & Hname & Hadmits).
    destruct (init_getattr A values r g HpreA HndA HA Hg) as (v' & Hattr & Hpass).
    rewrite Hname in Hattr.
    apply present_supplied in Hpass; [ | rewrite Hname; exact Hpresent ].
    apply validate_field_supplied in Hpass as (v & Hget & Hty).
    exists v'. split; [ | exact Hattr ].
    apply validate_field_supplied. exists v. rewrite <- Hname. auto. }
  assert (Hpass : forall f, In f (cls_fields B) ->
            exists v, validate_field f values = Supplied v \/ validate_field f values = Defaulted v).
  { intros f Hf. destruct (Hfields f Hf) as [ Hto | Hown ]; [ | exact Hown ].
    destruct (Hover f Hto) as (v' & Hv' & _). eauto. }
  destruct (proj2 (init_accepts_iff B values HpreB) Hpass) as [r' Hr'].
  exists r'. split; [ exact Hr' | ].
  intros f Hf Hto.
  destruct (Hover f Hto) as (v' & Hv' & Hattr).
  destruct (init_getattr B values r' f HpreB HndB Hr' Hf) as (w & Hw & Hwpass).
  rewrite Hw, Hattr. rewrite Hv' in Hwpass.
  destruct Hwpass as [ [= ->] | Hbad ]; [ reflexivity | discriminate ].
Qed.

Lemma put_declared_NoDup : NoDup (declared ServicesDataPut.cls).
Proof.
  unfold declared; simpl.
  repeat constructor; simpl; intuition discriminate.
Qed.

(** Solves [takes_over A f values] for a concrete field [f] of a concrete
    shape, given that every key of [names] is present. *)
Ltac take_over Hpresent :=
  split;
  [ apply Hpresent; simpl; tauto
  | lazymatch goal with
    | |- exists g, In g ?l /\ _ =>
        let l' := eval cbv in l in
        let rec go l :=
          lazymatch l with
          | ?x :: ?tl =>
              first [ exists x; split; [ simpl; tauto | split; [ reflexivity | ] ];
                      let Hadm := fresh "Hadm" in
                      intros ? ? Hadm;
                      first [ exact Hadm | exact (validate_type_optional_admits _ _ _ Hadm) ]
                    | go tl ]
          end in
        go l'
    end ].

(** Closes [getattr r' n = getattr r n] with the field of [fields] named [n],
    through the agreement [Hsame] a shape transfer gave. *)
Ltac same_attr Hsame Hpresent fields :=
  let l := eval cbv in fields in
  let rec go l :=
    lazymatch l with
    | ?x :: ?tl => first [ apply (Hsame x); [ simpl; tauto | take_over Hpresent ] | go tl ]
    end in
  go l.

(** X3. A body is accepted by [ServicesDataPut] exactly when it carries all
    five fields, [service_type_id] holding an integer and [properties] a map
    (null is refused for both), and each of [territory_type_id], [name] and
    [capacity_real] holding either an explicit null or a value of its type. *)
Theorem put_accepts_iff :
  forall (rt : Runtime) (body : dict),
    (exists r, BaseModel_init ServicesDataPut.cls body = Ok r) <->
    (exists v1 v2 v3 v4 d,
       dict_get body "service_type_id" = Some v1
       /\ (exists z, validate_type TInt v1 = Some (VInt z))
       /\ dict_get body "territory_type_id" = Some v2
       /\ (v2 = VNone \/ exists z, validate_type TInt v2 = Some (VInt z))
       /\ dict_get body "name" = Some v3
       /\ (v3 = VNone \/ exists s, v3 = VStr s)
       /\ dict_get body "capacity_real" = Some v4
       /\ (v4 = VNone \/ exists z, validate_type TInt v4 = Some (VInt z))
       /\ dict_get body "properties" = Some (VDict d)).
Proof.
  intros rt body.
  rewrite (init_accepts_iff ServicesDataPut.cls body eq_refl).
  split.
  - intros Hall.
    assert (Hsup : forall f, In f (cls_fields ServicesDataPut.cls) ->
              exists v v', dict_get body (fname f) = Some v
                           /\ validate_type (fannot f) v = Some v').
    { intros f Hf. destruct (Hall f Hf) as [w [ Hw | Hw ]].
      - apply validate_field_supplied in Hw as (v & Hget & Hty). eauto.
      - apply validate_field_defaulted in Hw as [_ Hd]. simpl in Hf.
        destruct Hf as [ <- | [ <- | [ <- | [ <- | [ <- | [] ]]]]]; discriminate. }
    destruct (Hsup (Field "service_type_id" TInt Required)) as (v1 & w1 & G1 & T1);
      [ simpl; tauto | ].
    destruct (Hsup (Field "territory_type_id" (TOptional TInt) Required)) as (v2 & w2 & G2 & T2);
      [ simpl; tauto | ].
    destruct (Hsup (Field "name" (TOptional TStr) Required)) as (v3 & w3 & G3 & T3);
      [ simpl; tauto | ].
    destruct (Hsup (Field "capacity_real" (TOptional TInt) Required)) as (v4 & w4 & G4 & T4);
      [ simpl; tauto | ].
    destruct (Hsup (Field "properties" TDictStrAny Required)) as (v5 & w5 & G5 & T5);
      [ simpl; tauto | ].
    cbn [fname fannot] in *.
    destruct (validate_type_dict v5 w5 T5) as (d & -> & _).
    exists v1, v2, v3, v4, d.
    split; [ exact G1 | ]. split.
    { destruct (validate_type_int v1 w1 T1) as [_ [z ->]]. eauto. }
    split; [ exact G2 | ]. split.
    { destruct (validate_type_optional_inv _ _ _ T2) as [ [-> _] | [_ T] ]; [ now left | right ].
      destruct (validate_type_int v2 w2 T) as [_ [z ->]]. eauto. }
    split; [ exact G3 | ]. split.
    { destruct (validate_type_optional_inv _ _ _ T3) as [ [-> _] | [_ T] ]; [ now left | right ].
      destruct (validate_type_str v3 w3 T) as (s & -> & _). eauto. }
    split; [ exact G4 | ]. split.
    { destruct (validate_type_optional_inv _ _ _ T4) as [ [-> _] | [_ T] ]; [ now left | right ].
      destruct (validate_type_int v4 w4 T) as [_ [z ->]]. eauto. }
    exact G5.
  - intros (v1 & v2 & v3 & v4 & d & G1 & [z1 T1] & G2 & T2 & G3 & T3 & G4 & T4 & G5).
    intros f Hf. simpl in Hf.
    destruct Hf as [ <- | [ <- | [ <- | [ <- | [ <- | [] ]]]]].
    + exists (VInt z1). left. apply validate_field_supplied. eauto.
    + destruct T2 as [ -> | [z T] ].
      * exists VNone. left. apply validate_field_supplied. exists VNone. auto.
      * exists (VInt z). left. apply validate_field_supplied. exists v2.
        split; [ exact G2 | ]. now apply validate_type_optional_admits.
    + destruct T3 as [ -> | [s ->] ].
      * exists VNone. left. apply validate_field_supplied. exists VNone. auto.
      * exists (VStr s). left. apply validate_field_supplied. exists (VStr s). auto.
    + destruct T4 as [ -> | [z T] ].
      * exists VNone. left. apply validate_field_supplied. exists VNone. auto.
      * exists (VInt z). left. apply validate_field_supplied. exists v4.
        split; [ exact G4 | ]. now apply validate_type_optional_admits.
    + exists (VDict d). left. apply validate_field_supplied. exists (VDict d). auto.
Qed.

(** X5. A create body that [ServicesDataPost] accepts and that carries all
    five fields of the replace shape is accepted by [ServicesDataPut] too,
    and the two records hold the same value for each of the five. *)
Theorem post_body_accepted_by_put :
  forall (rt : Runtime) (body : dict) (r : instance),
    BaseModel_init ServicesDataPost.cls body = Ok r ->
    (forall n, In n (declared ServicesDataPut.cls) -> dict_get body n <> None) ->
    exists r',
      BaseModel_init ServicesDataPut.cls body = Ok r'
      /\ forall n, In n (declared ServicesDataPut.cls) -> getattr r' n = getattr r n.
Proof.
  intros rt body r H Hpresent.
  assert (Hto : forall f, In f (cls_fields ServicesDataPut.cls) ->
            takes_over ServicesDataPost.cls f body).
  { intros f Hf. simpl in Hf.
    destruct Hf as [ <- | [ <- | [ <- | [ <- | [ <- | [] ]]]]]; take_over Hpresent. }
  destruct (shape_transfer ServicesDataPost.cls ServicesDataPut.cls body r
              eq_refl eq_refl post_declared_NoDup put_declared_NoDup H
              (fun f Hf => or_introl (Hto f Hf))) as (r' & Hr' & Hsame).
  exists r'. split; [ exact Hr' | ].
  intros n Hn. apply in_map_iff in Hn as (f & <- & Hf). auto.
Qed.

Lemma post_body_accepted_by_put_witness :
  let body := [("physical_object_id", VInt 7); ("object_geometry_id", VInt 8);
               ("service_type_id", VInt 3); ("territory_type_id", VNone);
               ("name", VStr "Clinic"); ("capacity_real", VInt 40);
               ("properties", VDict [("floors", VInt 2)])] in
  let r := {| inst_cls := "ServicesDataPost";
              inst_attrs := body;
              model_fields_set := ["physical_object_id"; "object_geometry_id"; "service_type_id";
                                   "territory_type_id"; "name"; "capacity_real"; "properties"] |} in
  exists r',
    @BaseModel_init strict ServicesDataPut.cls body = Ok r'
    /\ forall n, In n (declared ServicesDataPut.cls) -> getattr r' n = getattr r n.
Proof.
  cbv zeta.
  apply (post_body_accepted_by_put strict
           [("physical_object_id", VInt 7); ("object_geometry_id", VInt 8);
            ("service_type_id", VInt 3); ("territory_type_id", VNone);
            ("name", VStr "Clinic"); ("capacity_real", VInt 40);
            ("properties", VDict [("floors", VInt 2)])]).
  - reflexivity.
  - intros n Hn. simpl in Hn.
    destruct Hn as [ <- | [ <- | [ <- | [ <- | [ <- | [] ]]]]]; discriminate.
Defined.

(** X6. A replace body that [ServicesDataPut] accepts and that holds no null
    is a valid patch as well: [ServicesDataPatch] accepts it and the two
    records hold the same value for every field. *)
Theorem put_body_without_nulls_accepted_by_patch :
  forall (rt : Runtime) (body : dict) (r : instance),
    BaseModel_init ServicesDataPut.cls body = Ok r ->
    first_null body = None ->
    exists r',
      BaseModel_init ServicesDataPatch.cls body = Ok r'
      /\ forall n, In n (declared ServicesDataPatch.cls) -> getattr r' n = getattr r n.
Proof.
  intros rt body r H Hnull.
  assert (Hpresent : forall n, In n (declared ServicesDataPut.cls) -> dict_get body n <> None).
  { intros n Hn. apply in_map_iff in Hn as (f & <- & Hf).
    destruct (proj1 (init_accepts_iff ServicesDataPut.cls body eq_refl)
                (ex_intro _ r H) f Hf) as [w [ Hw | Hw ]].
    - apply validate_field_supplied in Hw as (v & -> & _). discriminate.
    - apply validate_field_defaulted in Hw as [_ Hd]. simpl in Hf.
      destruct Hf as [ <- | [ <- | [ <- | [ <- | [ <- | [] ]]]]]; discriminate. }
  assert (Hrun : run_before ServicesDataPatch.cls body = Ok body).
  { rewrite patch_run_before, Hnull. destruct body; [ | reflexivity ].
    exfalso. apply (Hpresent "service_type_id"); [ simpl; tauto | reflexivity ]. }
  assert (Hto : forall f, In f (cls_fields ServicesDataPatch.cls) ->
            takes_over ServicesDataPut.cls f body).
  { intros f Hf. simpl in Hf.
    destruct Hf as [ <- | [ <- | [ <- | [ <- | [ <- | [] ]]]]]; take_over Hpresent. }
  destruct (shape_transfer ServicesDataPut.cls ServicesDataPatch.cls body r
              eq_refl Hrun put_declared_NoDup patch_declared_NoDup H
              (fun f Hf => or_introl (Hto f Hf))) as (r' & Hr' & Hsame).
  exists r'. split; [ exact Hr' | ].
  intros n Hn. apply in_map_iff in Hn as (f & <- & Hf). auto.
Qed.

Lemma put_body_without_nulls_accepted_by_patch_witness :
  let body := [("service_type_id", VInt 3); ("territory_type_id", VInt 1);
               ("name", VStr "Clinic"); ("capacity_real", VInt 40);
               ("properties", VDict [])] in
  let r := {| inst_cls := "ServicesDataPut";
              inst_attrs := body;
              model_fields_set := ["service_type_id"; "territory_type_id"; "name";
                                   "capacity_real"; "properties"] |} in
  exists r',
    @BaseModel_init strict ServicesDataPatch.cls body = Ok r'
    /\ forall n, In n (declared ServicesDataPatch.cls) -> getattr r' n = getattr r n.
Proof.
  cbv zeta.
  apply (put_body_without_nulls_accepted_by_patch strict
           [("service_type_id", VInt 3); ("territory_type_id", VInt 1);
            ("name", VStr "Clinic"); ("capacity_real", VInt 40);
            ("properties", VDict [])]);
    reflexivity.
Defined.

(** The fields set of an accepted record: the declared names the body
    carries. *)
Lemma init_fields_set {rt : Runtime} (c : model_class) (values : dict) (r : instance) :
  run_before c values = Ok values ->
  BaseModel_init c values = Ok r ->
  forall n, In n (model_fields_set r) <-> In n (declared c) /\ dict_get values n <> None.
Proof.
  intros Hpre H n.
  pose proof (proj1 (init_accepts_iff c values Hpre) (ex_intro _ r H)) as Hpass.
  apply BaseModel_init_Ok in H as (values' & Hpre' & Hfields & _).
  rewrite Hpre in Hpre'. injection Hpre' as <-.
  pose proof (validate_fields_set (cls_fields c) values n) as Hset.
  rewrite Hfields in Hset. simpl in Hset. rewrite Hset. split.
  - intros (f & v & Hf & <- & Hv). split; [ now apply in_map | ].
    apply validate_field_supplied in Hv as (v0 & -> & _). discriminate.
  - intros [Hdecl Hpresent]. apply in_map_iff in Hdecl as (f & <- & Hf).
    destruct (Hpass f Hf) as [v Hv].
    exists f, v. repeat split; [ exact Hf | ]. now apply present_supplied.
Qed.

(** X4. What [ServicesDataPost] asks of a body it accepts: the three
    identifiers are present, non-null, and integers in the record; for
    [territory_type_id], [name] and [capacity_real] an omitted key and an
    explicit null give the same attribute, [None], and only the fields set
    tells them apart; [properties] is never an explicit null. *)
Theorem post_required_and_nullable_fields :
  forall (rt : Runtime) (body : dict) (r : instance),
    BaseModel_init ServicesDataPost.cls body = Ok r ->
    (forall n, In n ["physical_object_id"; "object_geometry_id"; "service_type_id"] ->
       exists v z, dict_get body n = Some v /\ is_None v = false
                   /\ getattr r n = Some (VInt z))
    /\ (forall n, In n ["territory_type_id"; "name"; "capacity_real"] ->
          dict_get body n = None \/ dict_get body n = Some VNone ->
          getattr r n = Some VNone)
    /\ (forall n, In n (model_fields_set r) <->
                  In n (declared ServicesDataPost.cls) /\ dict_get body n <> None)
    /\ dict_get body "properties" <> Some VNone.
Proof.
  intros rt body r H.
  pose proof (fun f => init_getattr ServicesDataPost.cls body r f eq_refl post_declared_NoDup H)
    as Hattr.
  split; [ | split; [ | split ] ].
  - intros n Hn.
    assert (Hf : In (Field n TInt Required) (cls_fields ServicesDataPost.cls)).
    { simpl in Hn |- *. destruct Hn as [ <- | [ <- | [ <- | [] ]]]; tauto. }
    destruct (Hattr _ Hf) as (w & Hw & [ Hs | Hd ]).
    + apply validate_field_supplied in Hs as (v & Hget & Hty).
      destruct (validate_type_int v w Hty) as [Hnn [z ->]].
      exists v, z. auto.
    + apply validate_field_defaulted in Hd as [_ Hd]. discriminate.
  - intros n Hn Hbody.
    assert (Hf : exists t, In (Field n (TOptional t) (Default VNone))
                             (cls_fields ServicesDataPost.cls)).
    { simpl in Hn |- *. destruct Hn as [ <- | [ <- | [ <- | [] ]]]; eexists; tauto. }
    destruct Hf as [t Hf].
    destruct (Hattr _ Hf) as (w & Hw & Hpass). cbn [fname] in Hw. rewrite Hw. f_equal.
    destruct Hbody as [ Hnone | Hnull ].
    + destruct Hpass as [ Hs | Hd ].
      * apply validate_field_supplied in Hs as (v & Hget & _).
        cbn [fname] in Hget. congruence.
      * apply validate_field_defaulted in Hd as [_ [= <-]]. reflexivity.
    + destruct Hpass as [ Hs | Hd ].
      * apply validate_field_supplied in Hs as (v & Hget & Hty).
        cbn [fname fannot] in Hget, Hty. rewrite Hnull in Hget. injection Hget as <-.
        simpl in Hty. congruence.
      * apply validate_field_defaulted in Hd as [Hget _].
        cbn [fname] in Hget. congruence.
  - apply (init_fields_set ServicesDataPost.cls body r eq_refl H).
  - intros Hnull.
    destruct (Hattr (Field "properties" TDictStrAny DefaultFactoryDict)) as (w & _ & [ Hs | Hd ]);
      [ simpl; tauto | | ].
    + apply validate_field_supplied in Hs as (v & Hget & Hty).
      cbn [fname fannot] in Hget, Hty. rewrite Hnull in Hget. injection Hget as <-.
      discriminate.
    + apply validate_field_defaulted in Hd as [Hget _].
      cbn [fname] in Hget. congruence.
Qed.

Lemma post_required_and_nullable_fields_witness :
  let body := [("physical_object_id", VInt 7); ("object_geometry_id", VInt 8);
               ("service_type_id", VInt 3); ("name", VNone)] in
  let r := {| inst_cls := "ServicesDataPost";
              inst_attrs := [("physical_object_id", VInt 7); ("object_geometry_id", VInt 8);
                             ("service_type_id", VInt 3); ("territory_type_id", VNone);
                             ("name", VNone); ("capacity_real", VNone); ("properties", VDict [])];
              model_fields_set := ["physical_object_id"; "object_geometry_id";
                                   "service_type_id"; "name"] |} in
  (forall n, In n ["physical_object_id"; "object_geometry_id"; "service_type_id"] ->
     exists v z, dict_get body n = Some v /\ is_None v = false
                 /\ getattr r n = Some (VInt z))
  /\ (forall n, In n ["territory_type_id"; "name"; "capacity_real"] ->
        dict_get body n = None \/ dict_get body n = Some VNone ->
        getattr r n = Some VNone)
  /\ (forall n, In n (model_fields_set r) <->
                In n (declared ServicesDataPost.cls) /\ dict_get body n <> None)
  /\ dict_get body "properties" <> Some VNone.
Proof.
  cbv zeta.
  apply (post_required_and_nullable_fields strict
           [("physical_object_id", VInt 7); ("object_geometry_id", VInt 8);
            ("service_type_id", VInt 3); ("name", VNone)]).
  reflexivity.
Defined.

(** ** Indicators and measurement units *)

Lemma indicators_declared_NoDup : NoDup (declared Indicators.cls).
Proof.
  unfold declared; simpl.
  repeat constructor; simpl; intuition discriminate.
Qed.

Lemma indicators_post_declared_NoDup : NoDup (declared IndicatorsPost.cls).
Proof.
  unfold declared; simpl.
  repeat constructor; simpl; intuition discriminate.
Qed.

(** X7. [Indicators.from_dto] never fails: every indicator DTO, a root (no
    parent) or one without a measurement unit included, is projected to a
    record that holds the seven columns as they are, all of them in the
    fields set. *)
Theorem indicators_from_dto_total :
  forall (rt : Runtime) (dto : IndicatorsDTO.t),
    exists r,
      Indicators.from_dto dto = Ok r
      /\ inst_attrs r =
           [("indicator_id", VInt (IndicatorsDTO.indicator_id dto));
            ("name_full", VStr (IndicatorsDTO.name_full dto));
            ("name_short", VStr (IndicatorsDTO.name_short dto));
            ("measurement_unit_id", opt_int (IndicatorsDTO.measurement_unit_id dto));
            ("level", VInt (IndicatorsDTO.level dto));
            ("list_label", VStr (IndicatorsDTO.list_label dto));
            ("parent_id", opt_int (IndicatorsDTO.parent_id dto))]
      /\ model_fields_set r = declared Indicators.cls.
Proof.
  intros rt [iid nf ns mu lv ll pid].
  destruct mu, pid; (eexists; split; [ reflexivity | split; reflexivity ]).
Qed.

(** X8. Whatever the create shape accepts, the read shape can show: a body
    accepted by [IndicatorsPost], once it also carries an integer
    [indicator_id], is accepted by [Indicators], with the same value for each
    of the six fields the two shapes share. *)
Theorem indicators_post_body_accepted_by_indicators :
  forall (rt : Runtime) (body : dict) (r : instance) (v : value) (z : Z),
    BaseModel_init IndicatorsPost.cls body = Ok r ->
    dict_get body "indicator_id" = Some v ->
    validate_type TInt v = Some (VInt z) ->
    exists r',
      BaseModel_init Indicators.cls body = Ok r'
      /\ getattr r' "indicator_id" = Some (VInt z)
      /\ forall n, In n (declared IndicatorsPost.cls) -> getattr r' n = getattr r n.
Proof.
  intros rt body r v z H Hid Hty.
  assert (Hpresent : forall n, In n (declared IndicatorsPost.cls) -> dict_get body n <> None).
  { intros n Hn. apply in_map_iff in Hn as (f & <- & Hf).
    destruct (proj1 (init_accepts_iff IndicatorsPost.cls body eq_refl)
                (ex_intro _ r H) f Hf) as [w [ Hw | Hw ]].
    - apply validate_field_supplied in Hw as (v0 & -> & _). discriminate.
    - apply validate_field_defaulted in Hw as [_ Hd]. simpl in Hf.
      destruct Hf as [ <- | [ <- | [ <- | [ <- | [ <- | [ <- | [] ]]]]]]; discriminate. }
  assert (Hown : validate_field (Field "indicator_id" TInt Required) body = Supplied (VInt z)).
  { apply validate_field_supplied. exists v. auto. }
  assert (Hfields : forall f, In f (cls_fields Indicators.cls) ->
            takes_over IndicatorsPost.cls f body
            \/ exists w, validate_field f body = Supplied w \/ validate_field f body = Defaulted w).
  { intros f Hf. simpl in Hf.
    destruct Hf as [ <- | [ <- | [ <- | [ <- | [ <- | [ <- | [ <- | [] ]]]]]]];
      first [ right; exists (VInt z); left; exact Hown | left; take_over Hpresent ]. }
  destruct (shape_transfer IndicatorsPost.cls Indicators.cls body r
              eq_refl eq_refl indicators_post_declared_NoDup indicators_declared_NoDup H
              Hfields) as (r' & Hr' & Hsame).
  exists r'. split; [ exact Hr' | ]. split.
  - destruct (init_getattr Indicators.cls body r' (Field "indicator_id" TInt Required)
                eq_refl indicators_declared_NoDup Hr') as (w & Hw & Hpass);
      [ simpl; tauto | ].
    cbn [fname] in Hw. rewrite Hw. rewrite Hown in Hpass.
    destruct Hpass as [ [= ->] | Hbad ]; [ reflexivity | discriminate ].
  - intros n Hn. simpl in Hn.
    destruct Hn as [ <- | [ <- | [ <- | [ <- | [ <- | [ <- | [] ]]]]]];
      same_attr Hsame Hpresent (cls_fields Indicators.cls).
Qed.

Lemma indicators_post_body_accepted_by_indicators_witness :
  let body := [("indicator_id", VInt 12); ("name_full", VStr "Resident population");
               ("name_short", VStr "Population"); ("measurement_unit_id", VInt 1);
               ("level", VInt 2); ("list_label", VStr "1.1"); ("parent_id", VInt 1)] in
  let r := {| inst_cls := "IndicatorsPost";
              inst_attrs := [("name_full", VStr "Resident population");
                             ("name_short", VStr "Population"); ("measurement_unit_id", VInt 1);
                             ("level", VInt 2); ("list_label", VStr "1.1"); ("parent_id", VInt 1)];
              model_fields_set := ["name_full"; "name_short"; "measurement_unit_id"; "level";
                                   "list_label"; "parent_id"] |} in
  exists r',
    @BaseModel_init strict Indicators.cls body = Ok r'
    /\ getattr r' "indicator_id" = Some (VInt 12)
    /\ forall n, In n (declared IndicatorsPost.cls) -> getattr r' n = getattr r n.
Proof.
  cbv zeta.
  apply (indicators_post_body_accepted_by_indicators strict
           [("indicator_id", VInt 12); ("name_full", VStr "Resident population");
            ("name_short", VStr "Population"); ("measurement_unit_id", VInt 1);
            ("level", VInt 2); ("list_label", VStr "1.1"); ("parent_id", VInt 1)]
           _ (VInt 12) 12%Z);
    reflexivity.
Defined.

(** X9. [MeasurementUnitPost] accepts a body exactly when its [name] is a
    string, and the record carries that string; [MeasurementUnit.from_dto]
    then shows the same name back, under whatever identifier the unit was
    stored. *)
Theorem measurement_unit_name_round_trip :
  forall (rt : Runtime) (body : dict),
    ((exists r, BaseModel_init MeasurementUnitPost.cls body = Ok r) <->
     (exists s, dict_get body "name" = Some (VStr s)))
    /\ forall r, BaseModel_init MeasurementUnitPost.cls body = Ok r ->
         exists s,
           dict_get body "name" = Some (VStr s)
           /\ getattr r "name" = Some (VStr s)
           /\ forall id, exists i,
                MeasurementUnit.from_dto
                  {| MeasurementUnitDTO.measurement_unit_id := id;
                     MeasurementUnitDTO.name := s |} = Ok i
                /\ getattr i "name" = getattr r "name"
                /\ getattr i "measurement_unit_id" = Some (VInt id).
Proof.
  intros rt body.
  assert (Hfwd : forall r, BaseModel_init MeasurementUnitPost.cls body = Ok r ->
            exists s, dict_get body "name" = Some (VStr s)
                      /\ getattr r "name" = Some (VStr s)).
  { intros r H.
    assert (Hnd : NoDup (declared MeasurementUnitPost.cls))
      by (unfold declared; simpl; repeat constructor; simpl; tauto).
    destruct (init_getattr MeasurementUnitPost.cls body r (Field "name" TStr Required)
                eq_refl Hnd H) as (w & Hw & [ Hs | Hd ]); [ simpl; tauto | | ].
    - apply validate_field_supplied in Hs as (v & Hget & Hty).
      destruct (validate_type_str v w Hty) as (s & -> & ->). eauto.
    - apply validate_field_defaulted in Hd as [_ Hd]. discriminate. }
  split.
  - split.
    + intros [r H]. destruct (Hfwd r H) as (s & Hget & _). eauto.
    + intros [s Hget]. unfold BaseModel_init. simpl.
      unfold validate_field. simpl. rewrite Hget. simpl. eauto.
  - intros r H. destruct (Hfwd r H) as (s & Hget & Hattr).
    exists s. split; [ exact Hget | ]. split; [ exact Hattr | ].
    intros id. eexists. split; [ reflexivity | ]. rewrite Hattr. split; reflexivity.
Qed.

(** ** DTO projection, completed *)

(** X10. With both territory-type columns set, [ServicesData.from_dto]
    succeeds and the record is made of the DTO's columns only: the scalar
    columns as they are, the joined columns regrouped in the two nested
    objects, and all eight fields in the fields set, so that neither the
    clock behind the timestamp defaults nor any input conversion has a say
    in the result. *)
Theorem services_data_from_dto_record :
  forall (rt : Runtime) (dto : ServiceDTO.t) (tid : Z) (tname : string),
    ServiceDTO.territory_type_id dto = Some tid ->
    ServiceDTO.territory_type_name dto = Some tname ->
    ServicesData.from_dto dto =
    Ok {| inst_cls := "ServicesData";
          inst_attrs :=
            [("service_id", VInt (ServiceDTO.service_id dto));
             ("service_type",
              VModel "ServiceTypes"
                [("service_type_id", VInt (ServiceDTO.service_type_id dto));
                 ("urban_function_id", VInt (ServiceDTO.urban_function_id dto));
                 ("name", VStr (ServiceDTO.service_type_name dto));
                 ("capacity_modeled", VInt (ServiceDTO.service_type_capacity_modeled dto));
                 ("code", VStr (ServiceDTO.service_type_code dto))]
                (declared ServiceTypes.cls));
             ("territory_type",
              VModel "TerritoryType"
                [("territory_type_id", VInt tid); ("name", VStr tname)]
                (declared TerritoryType.cls));
             ("name", opt_str (ServiceDTO.name dto));
             ("capacity_real", opt_int (ServiceDTO.capacity_real dto));
             ("properties", VDict (ServiceDTO.properties dto));
             ("created_at", VDatetime (ServiceDTO.created_at dto));
             ("updated_at", VDatetime (ServiceDTO.updated_at dto))];
          model_fields_set := declared ServicesData.cls |}.
Proof.
  intros rt dto tid tname.
  destruct dto as [sid stid ufid stname stcap stcode ttid ttname nm cap props cat uat].
  simpl. intros -> ->.
  destruct nm, cap; reflexivity.
Qed.

Lemma services_data_from_dto_record_witness :
  @ServicesData.from_dto strict
    {| ServiceDTO.service_id := 1; ServiceDTO.service_type_id := 2;
       ServiceDTO.urban_function_id := 3; ServiceDTO.service_type_name := "School";
       ServiceDTO.service_type_capacity_modeled := 600; ServiceDTO.service_type_code := "1";
       ServiceDTO.territory_type_id := Some 1%Z; ServiceDTO.territory_type_name := Some "City";
       ServiceDTO.name := None; ServiceDTO.capacity_real := Some 540%Z;
       ServiceDTO.properties := []; ServiceDTO.created_at := 10; ServiceDTO.updated_at := 20 |} =
  Ok {| inst_cls := "ServicesData";
        inst_attrs :=
          [("service_id", VInt 1);
           ("service_type",
            VModel "ServiceTypes"
              [("service_type_id", VInt 2); ("urban_function_id", VInt 3);
               ("name", VStr "School"); ("capacity_modeled", VInt 600); ("code", VStr "1")]
              (declared ServiceTypes.cls));
           ("territory_type",
            VModel "TerritoryType"
              [("territory_type_id", VInt 1); ("name", VStr "City")]
              (declared TerritoryType.cls));
           ("name", VNone);
           ("capacity_real", VInt 540);
           ("properties", VDict []);
           ("created_at", VDatetime 10);
           ("updated_at", VDatetime 20)];
        model_fields_set := declared ServicesData.cls |}.
Proof.
  apply (services_data_from_dto_record strict
           {| ServiceDTO.service_id := 1; ServiceDTO.service_type_id := 2;
              ServiceDTO.urban_function_id := 3; ServiceDTO.service_type_name := "School";
              ServiceDTO.service_type_capacity_modeled := 600; ServiceDTO.service_type_code := "1";
              ServiceDTO.territory_type_id := Some 1%Z;
              ServiceDTO.territory_type_name := Some "City";
              ServiceDTO.name := None; ServiceDTO.capacity_real := Some 540%Z;
              ServiceDTO.properties := []; ServiceDTO.created_at := 10;
              ServiceDTO.updated_at := 20 |} 1%Z "City");
    reflexivity.
Defined.

(** A comprehension stops at the first element whose body raises. *)
Lemma comprehension_raises {A B : Type} (f : A -> result B)
    (good : list A) (bad : A) (rest : list A) (e : exn) :
  (forall a, In a good -> exists b, f a = Ok b) ->
  f bad = Raise e ->
  comprehension f (good ++ bad :: rest) = Raise e.
Proof.
  intros Hgood Hbad.
  induction good as [ | a good IH ]; simpl.
  - rewrite Hbad. reflexivity.
  - destruct (Hgood a (or_introl eq_refl)) as [b ->]. simpl.
    rewrite IH; [ reflexivity | ].
    intros a' Ha'. apply Hgood. now right.
Qed.

(** X11. A territory row that lacks a key makes
    [ServiceWithTerritories.from_dto] raise [KeyError]: with the territory
    type set and the rows before it well formed, the first row without
    "territory_id" raises KeyError("territory_id"), and one that has it but
    lacks "name" raises KeyError("name"); the rows after it are not looked
    at. *)
Theorem service_with_territories_from_dto_missing_key :
  forall (rt : Runtime) (dto : ServiceWithTerritoriesDTO.t)
         (tid : Z) (tname : string) (good : list dict) (bad : dict) (rest : list dict),
    ServiceWithTerritoriesDTO.territory_type_id dto = Some tid ->
    ServiceWithTerritoriesDTO.territory_type_name dto = Some tname ->
    ServiceWithTerritoriesDTO.territories dto = good ++ bad :: rest ->
    forallb well_formed_row good = true ->
    dict_get bad "territory_id" = None \/ dict_get bad "name" = None ->
    ServiceWithTerritories.from_dto dto =
    Raise (KeyError (match dict_get bad "territory_id" with
                     | None => "territory_id"
                     | Some _ => "name"
                     end)).
Proof.
  intros rt dto tid tname good bad rest Htid Htname Hrows Hgood Hbad.
  destruct dto as [sid stid ufid stname stcap stcode ttid ttname nm cap props rows cat uat].
  simpl in Htid, Htname, Hrows. subst ttid ttname rows.
  unfold ServiceWithTerritories.from_dto. cbn -[comprehension].
  rewrite (comprehension_raises ServiceWithTerritories.short_territory good bad rest
             (KeyError (match dict_get bad "territory_id" with
                        | None => "territory_id"
                        | Some _ => "name"
                        end))).
  - reflexivity.
  - intros row Hrow.
    rewrite forallb_forall in Hgood.
    destruct (short_territory_of_row rt row (Hgood row Hrow)) as (t & Ht & _). eauto.
  - unfold ServiceWithTerritories.short_territory, getitem.
    destruct (dict_get bad "territory_id") as [ i | ]; [ | reflexivity ].
    destruct Hbad as [ Hbad | Hbad ]; [ discriminate | ].
    rewrite Hbad. reflexivity.
Qed.

Lemma service_with_territories_from_dto_missing_key_witness :
  @ServiceWithTerritories.from_dto strict ferry_dto = Raise (KeyError "territory_id").
Proof.
  apply (service_with_territories_from_dto_missing_key strict ferry_dto 1%Z "City"
           [ [("territory_id", VInt 10); ("name", VStr "North")] ]
           [("name", VStr "Harbour")]
           [ [("territory_id", VInt 3)] ]);
    try reflexivity.
  left. reflexivity.
Defined.

Lemma service_with_territories_from_dto_null_territory_type_witness :
  exists e errs,
    @ServiceWithTerritories.from_dto strict
      {| ServiceWithTerritoriesDTO.service_id := 11;
         ServiceWithTerritoriesDTO.service_type_id := 8;
         ServiceWithTerritoriesDTO.urban_function_id := 2;
         ServiceWithTerritoriesDTO.service_type_name := "Ferry";
         ServiceWithTerritoriesDTO.service_type_capacity_modeled := 300;
         ServiceWithTerritoriesDTO.service_type_code := "9";
         ServiceWithTerritoriesDTO.territory_type_id := None;
         ServiceWithTerritoriesDTO.territory_type_name := None;
         ServiceWithTerritoriesDTO.name := None;
         ServiceWithTerritoriesDTO.capacity_real := None;
         ServiceWithTerritoriesDTO.properties := [];
         ServiceWithTerritoriesDTO.territories := [ [("name", VStr "Harbour")] ];
         ServiceWithTerritoriesDTO.created_at := 1;
         ServiceWithTerritoriesDTO.updated_at := 2 |} =
    Raise (ValidationError "TerritoryType" (e :: errs)).
Proof.
  apply (service_with_territories_from_dto_null_territory_type strict); reflexivity.
Defined.

(** X13. In [ServicesDataWithGeometry.from_dto] the nested [TerritoryType]
    is built before the geometries are converted: with both territory-type
    columns null the projection raises that validation error whatever the
    converter does, also when it would have refused the geometry. *)
Theorem services_data_with_geometry_territory_type_first :
  forall (rt : Runtime) (shapely : Type) (from_shapely_geometry : shapely -> result instance)
         (dto : ServiceWithGeometryDTO.t shapely),
    ServiceWithGeometryDTO.territory_type_id dto = None ->
    ServiceWithGeometryDTO.territory_type_name dto = None ->
    exists e errs,
      ServicesDataWithGeometry.from_dto shapely from_shapely_geometry dto =
      Raise (ValidationError "TerritoryType" (e :: errs)).
Proof.
  intros rt shapely conv dto Hid Hname.
  destruct dto as [sid stid ufid stname stcap stcode ttid ttname nm cap props g c cat uat].
  simpl in Hid, Hname. subst ttid ttname.
  do 2 eexists. reflexivity.
Qed.

Lemma services_data_with_geometry_territory_type_first_witness :
  geometry_of_wkt (ServiceWithGeometryDTO.geometry unplaced_depot_dto) =
    Raise (ValueError "empty geometry")
  /\ exists e errs,
       @ServicesDataWithGeometry.from_dto strict string geometry_of_wkt unplaced_depot_dto =
       Raise (ValidationError "TerritoryType" (e :: errs)).
Proof.
  split; [ reflexivity | ].
  apply (services_data_with_geometry_territory_type_first strict string geometry_of_wkt
           unplaced_depot_dto);
    reflexivity.
Defined.

(** X14. With the territory type set, an exception of the geometry converter
    is the exception of [ServicesDataWithGeometry.from_dto]: the one raised
    for the footprint, or, when the footprint converts, the one raised for
    the centre point. *)
Theorem services_data_with_geometry_converter_error :
  forall (rt : Runtime) (shapely : Type) (from_shapely_geometry : shapely -> result instance)
         (dto : ServiceWithGeometryDTO.t shapely) (tid : Z) (tname : string) (e : exn),
    ServiceWithGeometryDTO.territory_type_id dto = Some tid ->
    ServiceWithGeometryDTO.territory_type_name dto = Some tname ->
    from_shapely_geometry (ServiceWithGeometryDTO.geometry dto) = Raise e
    \/ ((exists g, from_shapely_geometry (ServiceWithGeometryDTO.geometry dto) = Ok g)
        /\ from_shapely_geometry (ServiceWithGeometryDTO.centre_point dto) = Raise e) ->
    ServicesDataWithGeometry.from_dto shapely from_shapely_geometry dto = Raise e.
Proof.
  intros rt shapely conv dto tid tname e Hid Hname Hconv.
  destruct dto as [sid stid ufid stname stcap stcode ttid ttname nm cap props g c cat uat].
  simpl in Hid, Hname, Hconv. subst ttid ttname.
  unfold ServicesDataWithGeometry.from_dto. cbn -[BaseModel_init].
  change (BaseModel_init ServiceTypes.cls _) with
    (Ok {| inst_cls := "ServiceTypes";
           inst_attrs := [("service_type_id", VInt stid); ("urban_function_id", VInt ufid);
                          ("name", VStr stname); ("capacity_modeled", VInt stcap);
                          ("code", VStr stcode)];
           model_fields_set := declared ServiceTypes.cls |}).
  change (BaseModel_init TerritoryType.cls _) with
    (Ok {| inst_cls := "TerritoryType";
           inst_attrs := [("territory_type_id", VInt tid); ("name", VStr tname)];
           model_fields_set := declared TerritoryType.cls |}).
  cbn [bind].
  destruct Hconv as [ -> | [[g' ->] ->] ]; reflexivity.
Qed.

Lemma services_data_with_geometry_converter_error_witness :
  @ServicesDataWithGeometry.from_dto strict string geometry_of_wkt
    {| ServiceWithGeometryDTO.service_id := 9;
       ServiceWithGeometryDTO.service_type_id := 6;
       ServiceWithGeometryDTO.urban_function_id := 2;
       ServiceWithGeometryDTO.service_type_name := "Depot";
       ServiceWithGeometryDTO.service_type_capacity_modeled := 12;
       ServiceWithGeometryDTO.service_type_code := "7";
       ServiceWithGeometryDTO.territory_type_id := Some 1%Z;
       ServiceWithGeometryDTO.territory_type_name := Some "City";
       ServiceWithGeometryDTO.name := None;
       ServiceWithGeometryDTO.capacity_real := None;
       ServiceWithGeometryDTO.properties := [];
       ServiceWithGeometryDTO.geometry := "POLYGON ((0 0, 0 1, 1 1, 0 0))";
       ServiceWithGeometryDTO.centre_point := "";
       ServiceWithGeometryDTO.created_at := 1;
       ServiceWithGeometryDTO.updated_at := 2 |} =
  Raise (ValueError "empty geometry").
Proof.
  apply (services_data_with_geometry_converter_error strict string geometry_of_wkt
           _ 1%Z "City").
  - reflexivity.
  - reflexivity.
  - right. split; [ eexists; reflexivity | reflexivity ].
Defined.

(** X15. With the territory type set and both geometries converted to
    [Geometry] instances, [ServicesDataWithGeometry.from_dto] succeeds: the
    record holds the two converted geometries as the converter gave them,
    the scalar columns as they are, and all ten fields in its fields set. *)
Theorem services_data_with_geometry_from_dto_carries_fields :
  forall (rt : Runtime) (shapely : Type) (from_shapely_geometry : shapely -> result instance)
         (dto : ServiceWithGeometryDTO.t shapely) (tid : Z) (tname : string)
         (g c : instance),
    ServiceWithGeometryDTO.territory_type_id dto = Some tid ->
    ServiceWithGeometryDTO.territory_type_name dto = Some tname ->
    from_shapely_geometry (ServiceWithGeometryDTO.geometry dto) = Ok g ->
    from_shapely_geometry (ServiceWithGeometryDTO.centre_point dto) = Ok c ->
    inst_cls g = "Geometry" ->
    inst_cls c = "Geometry" ->
    exists r,
      ServicesDataWithGeometry.from_dto shapely from_shapely_geometry dto = Ok r
      /\ getattr r "geometry" = Some (as_value g)
      /\ getattr r "centre_point" = Some (as_value c)
      /\ getattr r "service_id" = Some (VInt (ServiceWithGeometryDTO.service_id dto))
      /\ getattr r "name" = Some (opt_str (ServiceWithGeometryDTO.name dto))
      /\ getattr r "capacity_real" = Some (opt_int (ServiceWithGeometryDTO.capacity_real dto))
      /\ getattr r "properties" = Some (VDict (ServiceWithGeometryDTO.properties dto))
      /\ getattr r "created_at" = Some (VDatetime (ServiceWithGeometryDTO.created_at dto))
      /\ getattr r "updated_at" = Some (VDatetime (ServiceWithGeometryDTO.updated_at dto))
      /\ model_fields_set r = declared ServicesDataWithGeometry.cls.
Proof.
  intros rt shapely conv dto tid tname g c Hid Hname Hg Hc Hgcls Hccls.
  destruct dto as [sid stid ufid stname stcap stcode ttid ttname nm cap props sg sc cat uat].
  simpl in Hid, Hname, Hg, Hc. subst ttid ttname.
  destruct g as [gcls gattrs gset], c as [ccls cattrs cset].
  simpl in Hgcls, Hccls. subst gcls ccls.
  unfold ServicesDataWithGeometry.from_dto. cbn -[BaseModel_init].
  change (BaseModel_init ServiceTypes.cls _) with
    (Ok {| inst_cls := "ServiceTypes";
           inst_attrs := [("service_type_id", VInt stid); ("urban_function_id", VInt ufid);
                          ("name", VStr stname); ("capacity_modeled", VInt stcap);
                          ("code", VStr stcode)];
           model_fields_set := declared ServiceTypes.cls |}).
  change (BaseModel_init TerritoryType.cls _) with
    (Ok {| inst_cls := "TerritoryType";
           inst_attrs := [("territory_type_id", VInt tid); ("name", VStr tname)];
           model_fields_set := declared TerritoryType.cls |}).
  cbn [bind]. rewrite Hg, Hc. cbn [bind].
  destruct nm, cap; (eexists; split; [ reflexivity | repeat split ]).
Qed.

Lemma services_data_with_geometry_from_dto_carries_fields_witness :
  exists r,
    @ServicesDataWithGeometry.from_dto strict string geometry_of_wkt depot_dto = Ok r
    /\ getattr r "geometry" =
         Some (VModel "Geometry" [("wkt", VStr "POLYGON ((0 0, 0 1, 1 1, 0 0))")] ["wkt"])
    /\ getattr r "centre_point" =
         Some (VModel "Geometry" [("wkt", VStr "POINT (0.3 0.6)")] ["wkt"])
    /\ getattr r "service_id" = Some (VInt 9)
    /\ getattr r "name" = Some (VStr "Depot 3")
    /\ getattr r "capacity_real" = Some VNone
    /\ getattr r "properties" = Some (VDict [])
    /\ getattr r "created_at" = Some (VDatetime 1711470804)
    /\ getattr r "updated_at" = Some (VDatetime 1711470804)
    /\ model_fields_set r = declared ServicesDataWithGeometry.cls.
Proof.
  apply (services_data_with_geometry_from_dto_carries_fields strict string geometry_of_wkt
           depot_dto 1%Z "City"
           {| inst_cls := "Geometry";
              inst_attrs := [("wkt", VStr "POLYGON ((0 0, 0 1, 1 1, 0 0))")];
              model_fields_set := ["wkt"] |}
           {| inst_cls := "Geometry";
              inst_attrs := [("wkt", VStr "POINT (0.3 0.6)")];
              model_fields_set := ["wkt"] |});
    reflexivity.
Defined.

(** ** Error rendering, completed *)

Lemma append_assoc (a b c : string) : ((a ++ b) ++ c = a ++ (b ++ c))%string.
Proof. induction a as [ | x a IH ]; simpl; [ reflexivity | now rewrite IH ]. Qed.

Lemma append_cancel_l (p a b : string) : (p ++ a = p ++ b)%string -> a = b.
Proof.
  induction p as [ | x p IH ]; simpl; [ auto | ].
  intros [= H]. auto.
Qed.

Lemma length_append (a b : string) :
  String.length (a ++ b) = String.length a + String.length b.
Proof. induction a as [ | x a IH ]; simpl; [ reflexivity | now rewrite IH ]. Qed.

Lemma append_cancel_r (a b t : string) : (a ++ t = b ++ t)%string -> a = b.
Proof.
  revert b. induction a as [ | x a IH ]; intros [ | y b ] H; simpl in H.
  - reflexivity.
  - apply (f_equal String.length) in H. simpl in H. rewrite length_append in H. lia.
  - apply (f_equal String.length) in H. simpl in H. rewrite length_append in H. lia.
  - injection H as -> H. f_equal. auto.
Qed.

Lemma occurs_append (c : ascii) (a b : string) :
  occurs c (a ++ b) = occurs c a || occurs c b.
Proof.
  induction a as [ | x a IH ]; simpl; [ reflexivity | ].
  rewrite IH. now rewrite orb_assoc.
Qed.

Lemma split_last_absent (c : ascii) (s : string) :
  occurs c s = false -> split_last c s = None.
Proof.
  induction s as [ | a s IH ]; simpl; [ reflexivity | ].
  intros H. apply orb_false_iff in H as [Ha Hs].
  rewrite (IH Hs), Ha. reflexivity.
Qed.

(** Cutting at the last occurrence gives back the two parts of a string
    put together around a character its second part does not hold. *)
Lemma split_last_append (c : ascii) (p t : string) :
  occurs c t = false -> split_last c (p ++ String c t) = Some (p, t).
Proof.
  intros Ht. induction p as [ | a p IH ]; simpl.
  - rewrite (split_last_absent c t Ht), Ascii.eqb_refl. reflexivity.
  - rewrite IH. reflexivity.
Qed.

(** A decimal numeral holds digits and at most a minus sign: no "=". *)
Lemma numeral_has_no_equals_sign (z : Z) : occurs "=" (str_of_int z) = false.
Proof.
  assert (Hu : forall d, occurs "=" (NilEmpty.string_of_uint d) = false)
    by (induction d; simpl; auto).
  assert (Hz : forall d, occurs "=" (NilZero.string_of_uint d) = false)
    by (intros d; destruct d; try reflexivity; apply (Hu _)).
  unfold str_of_int. destruct (Z.to_int z) as [ d | d ]; simpl; auto.
Qed.

Lemma str_of_int_injective (z1 z2 : Z) : str_of_int z1 = str_of_int z2 -> z1 = z2.
Proof.
  intros H.
  pose proof (str_of_int_reads_back z1) as H1.
  rewrite H, str_of_int_reads_back in H1. now injection H1.
Qed.

(** X16. The message of [EntityNotFoundById] tells the error apart: two
    errors render the same message only if they hold the same identifier and
    the same entity name, whatever text the entity name is. *)
Theorem entity_not_found_message_injective :
  forall (e1 e2 : EntityNotFoundById.t),
    EntityNotFoundById.__str__ e1 = EntityNotFoundById.__str__ e2 -> e1 = e2.
Proof.
  intros [id1 k1] [id2 k2] H.
  assert (Hshape : forall id k,
            EntityNotFoundById.__str__
              {| EntityNotFoundById.requested_id := id; EntityNotFoundById.entity := k |} =
            (("Entity '" ++ k ++ "' with id") ++
             String "=" (str_of_int id ++ " is not found"))%string).
  { intros id k. unfold EntityNotFoundById.__str__, fstring. simpl.
    rewrite (append_assoc k "' with id" _). reflexivity. }
  rewrite !Hshape in H.
  apply (f_equal (split_last "=")) in H.
  rewrite !split_last_append in H
    by (rewrite occurs_append, numeral_has_no_equals_sign; reflexivity).
  injection H. intros Hid Hk.
  apply append_cancel_r in Hid. apply str_of_int_injective in Hid.
  apply append_cancel_r in Hk.
  subst. reflexivity.
Qed.

Lemma entity_not_found_message_injective_witness :
  EntityNotFoundById.__init__ 42 "territory" = EntityNotFoundById.__init__ 42 "territory".
Proof.
  apply (entity_not_found_message_injective
           (EntityNotFoundById.__init__ 42 "territory")
           (EntityNotFoundById.__init__ 42 "territory")).
  reflexivity.
Defined.

(** ** The DTO package *)

Lemma mem_In (k : string) (names : list string) : mem k names = true <-> In k names.
Proof.
  unfold mem. rewrite existsb_exists. split.
  - intros (x & Hx & Heq). apply String.eqb_eq in Heq. now subst.
  - intros H. exists k. split; [ exact H | apply String.eqb_refl ].
Qed.

(** X17. urban_api/dto/__init__.py exports what it imports: the names of
    [__all__] are, without repetition, exactly the names its import
    statements bind, so each of them can be imported from the package.
    [IndicatorsDTO], the first name schemas/indicators.py asks of the
    package, is not among them (the package binds [IndicatorDTO]); the other
    two names it asks for are. *)
Theorem dto_package_exports_its_imports :
  (forall name, In name dto.__all__ <->
                exists m names, In (m, names) dto.imports /\ In name names)
  /\ NoDup dto.__all__
  /\ (forall name, In name dto.__all__ -> dto.binds name = true)
  /\ filter (fun name => negb (dto.binds name)) indicators_imports = ["IndicatorsDTO"]
  /\ dto.binds "IndicatorDTO" = true.
Proof.
  assert (Hsame : forall name, In name dto.__all__ <-> In name (flat_map snd dto.imports)).
  { intros name. rewrite <- !mem_In.
    split; intros H; apply mem_In in H; apply mem_In;
      revert name H; apply incl_Forall_in_iff, Forall_forall;
      intros x Hx; apply mem_In; revert x Hx; apply Forall_forall;
      repeat constructor. }
  split; [ | split; [ | split; [ | split ] ] ].
  - intros name. rewrite Hsame, in_flat_map. split.
    + intros ([m names] & Hin & Hname). eauto.
    + intros (m & names & Hin & Hname). exists (m, names). auto.
  - unfold dto.__all__. repeat constructor; simpl; intuition discriminate.
  - intros name Hname. apply mem_In. unfold dto.namespace.
    apply in_or_app. right. now apply Hsame.
  - reflexivity.
  - reflexivity.
Qed.

Lemma services_data_from_dto_territory_type_present_witness :
  exists attrs set,
    getattr
      {| inst_cls := "ServicesData";
         inst_attrs :=
           [("service_id", VInt 1);
            ("service_type",
             VModel "ServiceTypes"
               [("service_type_id", VInt 2); ("urban_function_id", VInt 3);
                ("name", VStr "School"); ("capacity_modeled", VInt 600); ("code", VStr "1")]
               (declared ServiceTypes.cls));
            ("territory_type",
             VModel "TerritoryType"
               [("territory_type_id", VInt 1); ("name", VStr "City")]
               (declared TerritoryType.cls));
            ("name", VNone);
            ("capacity_real", VInt 540);
            ("properties", VDict []);
            ("created_at", VDatetime 10);
            ("updated_at", VDatetime 20)];
         model_fields_set := declared ServicesData.cls |} "territory_type" =
    Some (VModel "TerritoryType" attrs set).
Proof.
  apply (services_data_from_dto_territory_type_present strict
           {| ServiceDTO.service_id := 1; ServiceDTO.service_type_id := 2;
              ServiceDTO.urban_function_id := 3; ServiceDTO.service_type_name := "School";
              ServiceDTO.service_type_capacity_modeled := 600; ServiceDTO.service_type_code := "1";
              ServiceDTO.territory_type_id := Some 1%Z;
              ServiceDTO.territory_type_name := Some "City";
              ServiceDTO.name := None; ServiceDTO.capacity_real := Some 540%Z;
              ServiceDTO.properties := []; ServiceDTO.created_at := 10;
              ServiceDTO.updated_at := 20 |}).
  reflexivity.
Defined.
